(** * dataset.py: the march-ml-mania [Dataset] loader

    A shallow embedding of [src/dataset.py].  The class reads eight CSV
    files with pandas, merges the compact (basic) and detailed (extended)
    result tables and answers five queries.

    What is modelled, and how:
    - a parsed CSV file is a header and a list of records ([csv]); the text
      parser of pandas is not modelled, only its result;
    - a [DataFrame] is a list of column names and a list of rows, each row
      carrying its index label, as pandas keeps it through filtering and
      concatenation;
    - every mutable Python object (frames, lists, dicts, the instance) lives
      in a [heap] and is referred to by its location; methods are written in
      a state-and-exception monad [M] over that heap, so that aliasing and
      freshness of results can be stated;
    - a [Series] (one column, a boolean mask) never escapes a method and is
      modelled as a plain list. *)

From Stdlib Require Import ZArith String.
From stdpp Require Import base option list gmap strings fin_maps.

Open Scope Z_scope.
Open Scope string_scope.
Open Scope list_scope.

(** ** Cells, rows, frames *)

Module Pandas.

(** A cell of a table: a number, a string, or a missing value.

    A number is given by its value: the integer 2003 of an int64 column and
    the float 2003.0 of a float64 column are both [CInt 2003]; Python holds
    them equal and takes them for the same dict key.  Fractions do not occur
    in the columns the class inspects and are not modelled.

    pandas has two missing values that Python code can tell apart.  [CNull]
    is a float NaN: the missing value of a numeric column, and a NaN that a
    caller makes.  Every such cell that is handed out is a float object of its
    own.  [CNaObj] is [numpy.nan] itself: the one object that [read_csv] puts
    for every missing field of a column of strings, and that a caller may
    pass as well. *)
Inductive cell : Type :=
| CInt (z : Z)
| CStr (s : string)
| CNull
| CNaObj.

#[global] Instance cell_eq_dec : EqDecision cell.
Proof. solve_decision. Defined.

Record row : Type := Row { label : nat; cells : list cell }.

#[global] Instance row_eq_dec : EqDecision row.
Proof. solve_decision. Defined.

(** pandas keeps a dtype with every column of a frame.  The model does not
    store it: it computes the dtype of a column from the column as
    [read_csv] delivered it ([infer_dtype]) and hands it on where an
    operation depends on it ([concat]). *)
Record DataFrame : Type := Frame { columns : list string; rows : list row }.

(** The result of parsing a CSV file: the header line and the records.  The
    parser hands out distinct column names (it renames a repeated one) and
    pads a short record with missing values.  A column of the result holds
    integers only (dtype int64), or numbers and [CNull] (float64), or strings
    and [CNaObj] (object). *)
Record csv : Type := Csv { header : list string; records : list (list cell) }.

(** Python exceptions raised by the modelled code.  [EmptyDataError] and
    [ParserError] are the two errors of pandas' parser; [OtherError] is any
    other exception, by the name of its class, that opening or decoding a
    file may raise.  [BadRef] stands for a location that holds no object of
    the expected class; no state built by the constructor reaches it. *)
Inductive exn : Type :=
| FileNotFoundError (path : string)
| EmptyDataError
| ParserError
| OtherError (name : string)
| KeyError (keys : list cell)
| AttributeError (name : string)
| TypeError
| BadRef (l : nat).

Definition res (A : Type) : Type := exn + A.

(** Position of the first column called [c]. *)
Fixpoint col_index (c : string) (cols : list string) : option nat :=
  match cols with
  | [] => None
  | c' :: cs => if decide (c = c') then Some 0%nat else S <$> col_index c cs
  end.

(** The value of row [r] of a frame with columns [cols] in column [c];
    missing when the frame has no such column or the row is short. *)
Definition cell_at (cols : list string) (r : row) (c : string) : cell :=
  match col_index c cols with
  | Some i => default CNull (cells r !! i)
  | None => CNull
  end.

(** [pd.read_csv]'s result for a parsed file: a default RangeIndex
    0..n-1 labels the rows. *)
Definition frame_of_csv (t : csv) : DataFrame :=
  Frame (header t) (imap Row (records t)).

(** [df[c]] with a single label: the column as a sequence of cells. *)
Definition getitem_col (df : DataFrame) (c : string) : res (list cell) :=
  if decide (c ∈ columns df)
  then inr ((λ r, cell_at (columns df) r c) <$> rows df)
  else inl (KeyError [CStr c]).

(** [df.c]: attribute access to a column. *)
Definition getattr_col (df : DataFrame) (c : string) : res (list cell) :=
  if decide (c ∈ columns df)
  then inr ((λ r, cell_at (columns df) r c) <$> rows df)
  else inl (AttributeError c).

(** [x < n] on one cell: a missing value compares false, a string cannot be
    ordered against an integer. *)
Definition cell_lt (n : Z) (x : cell) : res bool :=
  match x with
  | CInt z => inr (bool_decide (z < n))
  | CNull | CNaObj => inr false
  | CStr _ => inl TypeError
  end.

(** [series < n], element by element. *)
Fixpoint series_lt (s : list cell) (n : Z) : res (list bool) :=
  match s with
  | [] => inr []
  | x :: s' =>
      match cell_lt n x with
      | inl e => inl e
      | inr b =>
          match series_lt s' n with
          | inl e => inl e
          | inr bs => inr (b :: bs)
          end
      end
  end.

(** [series == n]: never raises; only an equal integer compares true. *)
Definition series_eq (s : list cell) (n : Z) : list bool :=
  (λ x, bool_decide (x = CInt n)) <$> s.

(** A missing value of either kind. *)
Definition is_nan (x : cell) : Prop := x = CNull ∨ x = CNaObj.

(** Membership as [isin] decides it: by equality, and a missing value is
    found among values that hold a missing value, of whichever kind. *)
Definition cell_in (x : cell) (values : list cell) : Prop :=
  x ∈ values ∨ (is_nan x ∧ Exists is_nan values).

#[global] Instance cell_in_dec x values : Decision (cell_in x values).
Proof. unfold cell_in, is_nan. apply _. Defined.

(** [series.isin(values)]. *)
Definition isin (s : list cell) (values : list cell) : list bool :=
  (λ x, bool_decide (cell_in x values)) <$> s.

(** [df.loc[mask]] with a boolean mask computed from [df] itself: the mask
    has the frame's own index, so it applies by position.  Rows keep their
    labels. *)
Fixpoint select_rows (rs : list row) (mask : list bool) : list row :=
  match rs, mask with
  | r :: rs', b :: mask' =>
      if b then r :: select_rows rs' mask' else select_rows rs' mask'
  | _, _ => []
  end.

Definition loc_mask (df : DataFrame) (mask : list bool) : DataFrame :=
  Frame (columns df) (select_rows (rows df) mask).

(** *** Column dtypes and concatenation *)

Inductive dtype : Type := int64 | float64 | object.

#[global] Instance dtype_eq_dec : EqDecision dtype.
Proof. solve_decision. Defined.

(** A cell that only a column of dtype object holds. *)
Definition is_text (x : cell) : Prop :=
  match x with
  | CStr _ | CNaObj => True
  | _ => False
  end.

#[global] Instance is_text_dec x : Decision (is_text x).
Proof. destruct x; simpl; apply _. Defined.

(** The dtype [read_csv] gives a column: object when it holds a string (and
    for a file without records), float64 when it holds numbers and missing
    values, int64 when it holds integers only. *)
Definition infer_dtype (s : list cell) : dtype :=
  if decide (Exists is_text s) then object
  else if decide (Exists is_nan s) then float64
  else if decide (s = []) then object
  else int64.

(** The dtype of column [c] of a frame that [read_csv] returned. *)
Definition dtype_as_read (df : DataFrame) (c : string) : dtype :=
  infer_dtype ((λ r, cell_at (columns df) r c) <$> rows df).

(** The integer that the float64 nearest to [z] holds: [z] itself up to
    2^53 in absolute value, and beyond that the nearest integer with a 53-bit
    significand, a tie going to the even significand.  (Cells of an int64
    column are below 2^63 in absolute value, far from the overflow of
    float64.) *)
Definition float64_of_Z (z : Z) : Z :=
  let a := Z.abs z in
  let n := Z.log2 a in
  if (n <? 53)%Z then z
  else
    let s := (n - 52)%Z in
    let q := Z.shiftr a s in
    let r := Z.land a (Z.ones s) in
    let half := Z.shiftl 1 (s - 1) in
    let q' := if ((half <? r)%Z || ((r =? half)%Z && Z.odd q))%bool
              then (q + 1)%Z else q in
    (Z.sgn z * Z.shiftl q' s)%Z.

(** A cell as a column of dtype [d] stores it: float64 holds an integer as
    the nearest float; int64 and object hold it as it is. *)
Definition to_dtype (d : dtype) (x : cell) : cell :=
  match d, x with
  | float64, CInt z => CInt (float64_of_Z z)
  | _, _ => x
  end.

(** The missing value that fills a column of dtype [d]. *)
Definition na_value (d : dtype) : cell :=
  match d with
  | object => CNaObj
  | _ => CNull
  end.

(** An operand of [pd.concat]: a frame and the dtype of each of its
    columns.  A frame that [read_csv] returned has the dtypes inferred from
    its columns; rows selected from it keep them. *)
Record operand : Type :=
  Operand { frame : DataFrame; dtype_of : string → dtype }.

(** Column union of [pd.concat]: names in order of first appearance.  (Older
    pandas releases sort the union instead; every query below selects
    columns by name, so nothing depends on that order.) *)
Definition union_columns (dfs : list DataFrame) : list string :=
  foldl (λ acc df, acc ++ filter (λ c, c ∉ acc) (columns df)) [] dfs.

(** The dtype of column [c] of the concatenation.  The operands that have
    the column and at least one row say what it must hold: object if one of
    them is object, else float64 if one of them is float64.  An operand
    without the column gets missing values there, which int64 cannot hold:
    the column is then float64 at least. *)
Definition common_dtype (ops : list operand) (c : string) : dtype :=
  let given :=
    (λ op, dtype_of op c)
      <$> filter (λ op, c ∈ columns (frame op) ∧ rows (frame op) ≠ []) ops in
  if decide (object ∈ given) then object
  else if decide (float64 ∈ given
                  ∨ Exists (λ op, c ∉ columns (frame op)) ops) then float64
  else int64.

(** A row of the operand [op] laid out on the columns [cols] of the
    concatenation: its own cells, stored in the dtype of the result column,
    and the missing value of that dtype in the columns the operand lacks. *)
Definition concat_row (ops : list operand) (cols : list string)
    (op : operand) (r : row) : row :=
  Row (label r)
    ((λ c, if decide (c ∈ columns (frame op))
           then to_dtype (common_dtype ops c)
                  (cell_at (columns (frame op)) r c)
           else na_value (common_dtype ops c)) <$> cols).

(** [pd.concat(ops)]: rows stacked in order, labels kept, schema the union. *)
Definition concat (ops : list operand) : DataFrame :=
  let cols := union_columns (frame <$> ops) in
  Frame cols (ops ≫= λ op, concat_row ops cols op <$> rows (frame op)).

(** [df.columns.tolist()]. *)
Definition columns_tolist (df : DataFrame) : list cell := CStr <$> columns df.

Definition key_in_columns (cols : list string) (k : cell) : Prop :=
  match k with
  | CStr s => s ∈ cols
  | _ => False
  end.

#[global] Instance key_in_columns_dec cols k : Decision (key_in_columns cols k).
Proof. destruct k; simpl; apply _. Defined.

Definition key_name (k : cell) : string :=
  match k with
  | CStr s => s
  | _ => EmptyString
  end.

(** The cells of row [r] under the labels [keys], in the order of [keys]. *)
Definition project_row (cols : list string) (keys : list cell) (r : row) : row :=
  Row (label r) ((λ k, cell_at cols r (key_name k)) <$> keys).

(** [df[keys]] with a list of labels: a new frame of the named columns in the
    order of [keys]; [KeyError] names the labels that are not columns. *)
Definition getitem_list (df : DataFrame) (keys : list cell) : res DataFrame :=
  match filter (λ k, ¬ key_in_columns (columns df) k) keys with
  | [] =>
      inr (Frame (key_name <$> keys)
             (project_row (columns df) keys <$> rows df))
  | missing => inl (KeyError missing)
  end.

(** [series.unique()]: distinct values in order of first appearance. *)
Definition unique (s : list cell) : list cell :=
  foldl (λ acc x, if decide (x ∈ acc) then acc else acc ++ [x]) [] s.

(** *** Dictionaries *)

(** Keys of a Python dict built from cells.  Integers and strings are keys by
    value.  A NaN equals nothing, itself included, so it is a key by
    identity.  [numpy.nan] is one object and hence one key, [KNaObj],
    however many rows carry it.  Every NaN drawn from a numeric column is a
    float object of its own: [KNaN i] is the NaN met at position [i]. *)
Inductive dkey : Type :=
| KInt (z : Z)
| KStr (s : string)
| KNaN (i : nat)
| KNaObj.

#[global] Instance dkey_eq_dec : EqDecision dkey.
Proof. solve_decision. Defined.

#[global] Instance dkey_countable : Countable dkey.
Proof.
  refine (inj_countable'
    (λ k, match k with
          | KInt z => inl (inl z)
          | KStr s => inl (inr s)
          | KNaN i => inr (Some i)
          | KNaObj => inr None
          end)
    (λ x : Z + string + option nat,
       match x with
       | inl (inl z) => KInt z
       | inl (inr s) => KStr s
       | inr (Some i) => KNaN i
       | inr None => KNaObj
       end) _).
  by intros [].
Defined.

Definition key_of (i : nat) (c : cell) : dkey :=
  match c with
  | CInt z => KInt z
  | CStr s => KStr s
  | CNull => KNaN i
  | CNaObj => KNaObj
  end.

(** [d.update(pairs)], the pairs numbered from [i]; a later pair overwrites
    an earlier one with the same key. *)
Fixpoint dict_update (d : gmap dkey cell) (i : nat) (kvs : list (cell * cell))
  : gmap dkey cell :=
  match kvs with
  | [] => d
  | (k, v) :: kvs' => dict_update (<[key_of i k := v]> d) (S i) kvs'
  end.

(** [dict(zip(ks, vs))]. *)
Definition dict_zip (ks vs : list cell) : gmap dkey cell :=
  dict_update ∅ 0 (zip ks vs).

(** The key a caller's argument denotes.  [numpy.nan] is the key [KNaObj];
    a NaN of the caller's own making is an object that no dict built from a
    table holds. *)
Definition arg_key (c : cell) : option dkey :=
  match c with
  | CInt z => Some (KInt z)
  | CStr s => Some (KStr s)
  | CNaObj => Some KNaObj
  | CNull => None
  end.

(** [d[k]]. *)
Definition dict_getitem (d : gmap dkey cell) (k : cell) : res cell :=
  match arg_key k ≫= (d !!.) with
  | Some v => inr v
  | None => inl (KeyError [k])
  end.

End Pandas.

(** ** Python objects and the heap *)

Module Py.
Import Pandas.

Definition loc : Type := nat.

(** The attributes of a [Dataset] instance, as [__init__] sets them.  Each
    attribute but [datadir] refers to an object of the heap. *)
Record Dataset : Type := mkDataset {
  datadir : string;
  regular_results : loc;
  tourney_results : loc;
  compact_headers : loc;
  detailed_headers : loc;
  teams : loc;
  seasons : loc;
  seeds : loc;
  slots : loc
}.

Inductive obj : Type :=
| ODataFrame (df : DataFrame)
| OList (l : list cell)
| ODict (d : gmap dkey cell)
| OInstance (a : Dataset).

(** Objects are allocated at the end of the heap and never moved or freed.
    Only objects that stay reachable after a call (stored in an attribute or
    returned) are allocated; the frames, masks and lists a method builds and
    drops on the way are computed as values. *)
Definition heap : Type := list obj.

(** State and exceptions: a computation returns a value or raises, and
    hands the heap on in both cases. *)
Definition M (A : Type) : Type := heap → res A * heap.

Definition ret {A} (a : A) : M A := λ h, (inr a, h).

Definition raise {A} (e : exn) : M A := λ h, (inl e, h).

Definition bind {A B} (m : M A) (k : A → M B) : M B :=
  λ h, match m h with
       | (inr a, h') => k a h'
       | (inl e, h') => (inl e, h')
       end.

Notation "x <- m ;; k" := (bind m (λ x, k))
  (at level 20, m at level 99, k at level 200, only parsing).

Definition lift {A} (r : res A) : M A :=
  match r with
  | inr a => ret a
  | inl e => raise e
  end.

Definition alloc (o : obj) : M loc := λ h, (inr (length h), h ++ [o]).

Definition get_frame (l : loc) : M DataFrame :=
  λ h, match h !! l with
       | Some (ODataFrame df) => (inr df, h)
       | _ => (inl (BadRef l), h)
       end.

Definition get_list (l : loc) : M (list cell) :=
  λ h, match h !! l with
       | Some (OList x) => (inr x, h)
       | _ => (inl (BadRef l), h)
       end.

Definition get_dict (l : loc) : M (gmap dkey cell) :=
  λ h, match h !! l with
       | Some (ODict d) => (inr d, h)
       | _ => (inl (BadRef l), h)
       end.

Definition get_instance (l : loc) : M Dataset :=
  λ h, match h !! l with
       | Some (OInstance a) => (inr a, h)
       | _ => (inl (BadRef l), h)
       end.

(** Arguments a caller may pass for [season]: [None], an [int], a [bool], a
    [float] (given by its bit pattern, never inspected), or an iterable,
    given by the items that iterating it yields. *)
Inductive pyarg : Type :=
| PyNone
| PyInt (z : Z)
| PyBool (b : bool)
| PyFloat (bits : Z)
| PyIter (items : list cell).

(** [list(x)]: only an iterable can be listed. *)
Definition py_list (x : pyarg) : res (list cell) :=
  match x with
  | PyIter items => inr items
  | _ => inl TypeError
  end.

End Py.

(** ** The [Dataset] class *)

Module DatasetPy.
Import Pandas Py.

(** What [pd.read_csv] meets at a path: no file, a file that it cannot
    turn into a table and that makes it raise [e] ([EmptyDataError] for a
    file without columns, [ParserError] for malformed lines), or a file that
    it parses into the table [t]. *)
Inductive file : Type :=
| Absent
| Unreadable (e : exn)
| Table (t : csv).

Record filesystem : Type := Files { file_at : string → file }.

(** The table parsed from the file at [path], when there is one.  A file
    system is used as this function: [fs path = Some t]. *)
Definition table_at (fs : filesystem) (path : string) : option csv :=
  match file_at fs path with
  | Table t => Some t
  | _ => None
  end.

Coercion table_at : filesystem >-> Funclass.

(** The exception that reading [path] raises, when it raises. *)
Definition read_error (fs : filesystem) (path : string) : option exn :=
  match file_at fs path with
  | Absent => Some (FileNotFoundError path)
  | Unreadable e => Some e
  | Table _ => None
  end.

(** [pd.read_csv(path)].  The frame is bound to a local variable of the
    constructor; it enters the heap only where an attribute keeps it. *)
Definition read_csv (fs : filesystem) (path : string) : M DataFrame :=
  match file_at fs path with
  | Table t => ret (frame_of_csv t)
  | Unreadable e => raise e
  | Absent => raise (FileNotFoundError path)
  end.

Definition default_datadir : string := "march-ml-mania-dataset/".

(** [pd.concat((comp.loc[comp['Season'] < 2003], det))] *)
Definition merge_results (comp det : DataFrame) : res DataFrame :=
  match getitem_col comp "Season" with
  | inl e => inl e
  | inr s =>
      match series_lt s 2003 with
      | inl e => inl e
      | inr mask =>
          inr (concat [ Operand (loc_mask comp mask) (dtype_as_read comp);
                        Operand det (dtype_as_read det) ])
      end
  end.

(** [dict(zip(df.Team_Id, df.Team_Name))] and [dict(zip(df.Team, df.Seed))] *)
Definition dict_of_columns (df : DataFrame) (kc vc : string)
  : res (gmap dkey cell) :=
  match getattr_col df kc with
  | inl e => inl e
  | inr ks =>
      match getattr_col df vc with
      | inl e => inl e
      | inr vs => inr (dict_zip ks vs)
      end
  end.

(** [Dataset(datadir)]: runs [__init__] and returns the new instance.
    Python creates the instance before [__init__] fills it; here it is
    allocated last, once all its attributes are known, which no caller can
    tell apart: a construction that raises hands out no instance. *)
Definition __init__ (fs : filesystem) (datadir : string) : M loc :=
  regular_comp <- read_csv fs (datadir +:+ "RegularSeasonCompactResults.csv") ;;
  tourney_comp <- read_csv fs (datadir +:+ "TourneyCompactResults.csv") ;;
  regular_det <- read_csv fs (datadir +:+ "RegularSeasonDetailedResults.csv") ;;
  tourney_det <- read_csv fs (datadir +:+ "TourneyDetailedResults.csv") ;;
  regular <- lift (merge_results regular_comp regular_det) ;;
  regular_results <- alloc (ODataFrame regular) ;;
  tourney <- lift (merge_results tourney_comp tourney_det) ;;
  tourney_results <- alloc (ODataFrame tourney) ;;
  compact_headers <- alloc (OList (columns_tolist regular_comp)) ;;
  detailed_headers <- alloc (OList (columns_tolist regular_det)) ;;
  df <- read_csv fs (datadir +:+ "Teams.csv") ;;
  d <- lift (dict_of_columns df "Team_Id" "Team_Name") ;;
  teams <- alloc (ODict d) ;;
  seasons_df <- read_csv fs (datadir +:+ "Seasons.csv") ;;
  seasons <- alloc (ODataFrame seasons_df) ;;
  seeds_df <- read_csv fs (datadir +:+ "TourneySeeds.csv") ;;
  seeds <- alloc (ODataFrame seeds_df) ;;
  slots_df <- read_csv fs (datadir +:+ "TourneySlots.csv") ;;
  slots <- alloc (ODataFrame slots_df) ;;
  alloc (OInstance
           (mkDataset datadir regular_results tourney_results compact_headers
              detailed_headers teams seasons seeds slots)).

(** [self.teams[id]] *)
Definition getTeam (self : loc) (id : cell) : M cell :=
  ds <- get_instance self ;;
  d <- get_dict (teams ds) ;;
  lift (dict_getitem d id).

(** [self.seasons.Season.unique().tolist()] *)
Definition getYears (self : loc) : M loc :=
  ds <- get_instance self ;;
  df <- get_frame (seasons ds) ;;
  s <- lift (getattr_col df "Season") ;;
  alloc (OList (unique s)).

(** [df = self.seeds.loc[self.seeds['Season'] == season]], then
    [dict(zip(df.Team, df.Seed))]. *)
Definition getSeeds (self : loc) (season : Z) : M loc :=
  ds <- get_instance self ;;
  seeds_df <- get_frame (seeds ds) ;;
  s <- lift (getitem_col seeds_df "Season") ;;
  let df := loc_mask seeds_df (series_eq s season) in
  d <- lift (dict_of_columns df "Team" "Seed") ;;
  alloc (ODict d).

(** [getRegularGames(self, season=None, compact=True)] *)
Definition getRegularGames (self : loc) (season : pyarg) (compact : bool)
  : M loc :=
  ds <- get_instance self ;;
  (* if type(season) is int: season = [season] *)
  let season := match season with
                | PyInt z => PyIter [CInt z]
                | _ => season
                end in
  headers <- get_list (if compact then compact_headers ds
                       else detailed_headers ds) ;;
  table <- get_frame (regular_results ds) ;;
  match season with
  | PyNone =>
      out <- lift (getitem_list table headers) ;;
      alloc (ODataFrame out)
  | _ =>
      s <- lift (getitem_col table "Season") ;;
      values <- lift (py_list season) ;;
      out <- lift (getitem_list (loc_mask table (isin s values)) headers) ;;
      alloc (ODataFrame out)
  end.

(** [getTourneyGames(self, season=None, compact=True)] *)
Definition getTourneyGames (self : loc) (season : pyarg) (compact : bool)
  : M loc :=
  ds <- get_instance self ;;
  (* if type(season) is int: season = [season] *)
  let season := match season with
                | PyInt z => PyIter [CInt z]
                | _ => season
                end in
  headers <- get_list (if compact then compact_headers ds
                       else detailed_headers ds) ;;
  table <- get_frame (tourney_results ds) ;;
  match season with
  | PyNone =>
      out <- lift (getitem_list table headers) ;;
      alloc (ODataFrame out)
  | _ =>
      s <- lift (getitem_col table "Season") ;;
      values <- lift (py_list season) ;;
      out <- lift (getitem_list (loc_mask table (isin s values)) headers) ;;
      alloc (ODataFrame out)
  end.

End DatasetPy.

(** ** What the specification says, in its own words *)

Module Spec.
Import Pandas Py DatasetPy.

(** An integer cell strictly below [n]. *)
Definition int_below (n : Z) (x : cell) : Prop :=
  match x with
  | CInt z => z < n
  | _ => False
  end.

#[global] Instance int_below_dec n x : Decision (int_below n x).
Proof. destruct x; simpl; apply _. Defined.

(** A cell that is not a string. *)
Definition not_str_cell (x : cell) : Prop :=
  match x with
  | CStr _ => False
  | _ => True
  end.

(** The row's Season is an integer strictly below [n]. *)
Definition season_before (n : Z) (cols : list string) (r : row) : Prop :=
  int_below n (cell_at cols r "Season").

#[global] Instance season_before_dec n cols r :
  Decision (season_before n cols r).
Proof. unfold season_before. apply _. Defined.

(** The row's Season is one of [values], as [isin] finds it. *)
Definition season_among (values : list cell) (cols : list string) (r : row)
  : Prop :=
  cell_in (cell_at cols r "Season") values.

#[global] Instance season_among_dec values cols r :
  Decision (season_among values cols r).
Proof. unfold season_among. apply _. Defined.

(** The union of two schemas: the basic columns, then the extended columns
    that are not basic ones. *)
Definition union_schema (basic extended : list string) : list string :=
  basic ++ filter (λ c, c ∉ basic) extended.

(** The rows of the basic file that the merge keeps: those of a season before
    2003. *)
Definition basic_era (comp : DataFrame) : list row :=
  filter (season_before 2003 (columns comp)) (rows comp).

(** The two operands of the merge of a compact and a detailed frame, both
    as read: the basic-era rows of the first, and the second. *)
Definition basic_operand (comp : DataFrame) : operand :=
  Operand (Frame (columns comp) (basic_era comp)) (dtype_as_read comp).

Definition extended_operand (det : DataFrame) : operand :=
  Operand det (dtype_as_read det).

(** The merged table: what [merge_results] computes when it succeeds. *)
Definition merged (comp det : DataFrame) : DataFrame :=
  concat [basic_operand comp; extended_operand det].


(** The rows of the merged table that come from a row of either frame. *)
Definition merged_basic_row (comp det : DataFrame) (r : row) : row :=
  concat_row [basic_operand comp; extended_operand det]
    (union_schema (columns comp) (columns det)) (basic_operand comp) r.

Definition merged_extended_row (comp det : DataFrame) (r : row) : row :=
  concat_row [basic_operand comp; extended_operand det]
    (union_schema (columns comp) (columns det)) (extended_operand det) r.

(** A row laid out again on the columns [cols], cell for cell; absent
    columns are null. *)
Definition reindex_row (from cols : list string) (r : row) : row :=
  Row (label r) (cell_at from r <$> cols).

(** The merged table as the specification describes it: the rows of the
    basic file with Season < 2003 on top of all rows of the extended file, on
    the union schema, every cell as it is in its file. *)
Definition spec_merged (comp det : DataFrame) : DataFrame :=
  let cols := union_schema (columns comp) (columns det) in
  Frame cols
    ((reindex_row (columns comp) cols <$> basic_era comp)
     ++ (reindex_row (columns det) cols <$> rows det)).

(** A cell that a float64 holds exactly: anything but an integer beyond
    2^53 in absolute value. *)
Definition float_exact (x : cell) : Prop :=
  match x with
  | CInt z => (Z.abs z ≤ 2 ^ 53)%Z
  | _ => True
  end.

#[global] Instance float_exact_dec x : Decision (float_exact x).
Proof. destruct x; simpl; apply _. Defined.






(** The table a query answers with: the rows of [table] that [keep] keeps,
    in their order and with their labels, under the columns [hs]. *)
Definition answer (table : DataFrame) (hs : list cell) (keep : row → Prop)
    `{!∀ r, Decision (keep r)} : DataFrame :=
  Frame (key_name <$> hs)
    (project_row (columns table) hs <$> filter keep (rows table)).

(** The labels of [hs] that are no columns of [table]. *)
Definition missing_from (table : DataFrame) (hs : list cell) : list cell :=
  filter (λ k, ¬ key_in_columns (columns table) k) hs.

(** A [season] argument of the documented kinds: absent, one integer, or
    an iterable. *)
Definition season_like (season : pyarg) : Prop :=
  match season with
  | PyNone | PyInt _ | PyIter _ => True
  | PyBool _ | PyFloat _ => False
  end.

(** The query [get], called on the heap [h], filters [table] by season and
    projects it on [hs]: all rows when season is absent, the rows whose
    Season is the given integer, the rows whose Season is among the given
    values, and a table of no rows when nothing matches.  Each answer is a
    new object at the end of the heap. *)
Definition answers_by_season (get : loc → pyarg → bool → M loc)
    (self : loc) (compact : bool) (h : heap) (table : DataFrame)
    (hs : list cell) : Prop :=
  get self PyNone compact h
  = (inr (length h),
     h ++ [ODataFrame (Frame (key_name <$> hs)
                         (project_row (columns table) hs <$> rows table))])
  ∧ (∀ z, get self (PyInt z) compact h
          = (inr (length h),
             h ++ [ODataFrame
                     (answer table hs
                        (season_among [CInt z] (columns table)))]))
  ∧ (∀ values, get self (PyIter values) compact h
               = (inr (length h),
                  h ++ [ODataFrame
                          (answer table hs
                             (season_among values (columns table)))]))
  ∧ (∀ values,
       Forall (λ r, ¬ season_among values (columns table) r) (rows table) →
       get self (PyIter values) compact h
       = (inr (length h), h ++ [ODataFrame (Frame (key_name <$> hs) [])])).

(** The row's Season is the integer [season]. *)
Definition season_is (season : Z) (cols : list string) (r : row) : Prop :=
  cell_at cols r "Season" = CInt season.

#[global] Instance season_is_dec season cols r :
  Decision (season_is season cols r).
Proof. unfold season_is. apply _. Defined.


(** [ys] lists the distinct values of the column [col], each once, in the
    order in which the column first shows them: a value listed before another
    one occurs in the column before every occurrence of the other. *)
Definition distinct_in_order (col ys : list cell) : Prop :=
  NoDup ys
  ∧ (∀ y, y ∈ ys ↔ y ∈ col)
  ∧ (∀ i j x y,
       ys !! i = Some x → ys !! j = Some y → (i < j)%nat →
       ∃ a, col !! a = Some x ∧ ∀ b, col !! b = Some y → (a < b)%nat).

(** Every object of the heap [h] is still in [h'], at its location and
    unchanged. *)
Definition keeps (h h' : heap) : Prop :=
  ∀ l o, h !! l = Some o → h' !! l = Some o.

(** The header list a query selects. *)
Definition headers_of (ds : Dataset) (compact : bool) : loc :=
  if compact then compact_headers ds else detailed_headers ds.

(** The eight files of a data directory, parsed. *)
Record parsed : Type := Parsed {
  regular_comp : csv;
  tourney_comp : csv;
  regular_det : csv;
  tourney_det : csv;
  teams_file : csv;
  seasons_file : csv;
  seeds_file : csv;
  slots_file : csv
}.

(** The directory [datadir] of [fs] holds the files [p]: at each of the
    eight paths there is a file, and pandas parses it into the table
    given. *)
Definition holds (fs : filesystem) (datadir : string) (p : parsed) : Prop :=
  fs (datadir +:+ "RegularSeasonCompactResults.csv") = Some (regular_comp p)
  ∧ fs (datadir +:+ "TourneyCompactResults.csv") = Some (tourney_comp p)
  ∧ fs (datadir +:+ "RegularSeasonDetailedResults.csv") = Some (regular_det p)
  ∧ fs (datadir +:+ "TourneyDetailedResults.csv") = Some (tourney_det p)
  ∧ fs (datadir +:+ "Teams.csv") = Some (teams_file p)
  ∧ fs (datadir +:+ "Seasons.csv") = Some (seasons_file p)
  ∧ fs (datadir +:+ "TourneySeeds.csv") = Some (seeds_file p)
  ∧ fs (datadir +:+ "TourneySlots.csv") = Some (slots_file p).

(** The instance built over a heap of [n] objects, and the objects it
    refers to, in allocation order. *)
Definition instance_at (n : nat) (datadir : string) : Dataset :=
  (mkDataset datadir n (n + 1) (n + 2) (n + 3) (n + 4) (n + 5) (n + 6)
     (n + 7))%nat.

Definition init_objects (n : nat) (datadir : string) (p : parsed)
    (d : gmap dkey cell) : list obj :=
  [ ODataFrame (merged (frame_of_csv (regular_comp p))
                  (frame_of_csv (regular_det p)));
    ODataFrame (merged (frame_of_csv (tourney_comp p))
                  (frame_of_csv (tourney_det p)));
    OList (columns_tolist (frame_of_csv (regular_comp p)));
    OList (columns_tolist (frame_of_csv (regular_det p)));
    ODict d;
    ODataFrame (frame_of_csv (seasons_file p));
    ODataFrame (frame_of_csv (seeds_file p));
    ODataFrame (frame_of_csv (slots_file p));
    OInstance (instance_at n datadir) ].

(** A column the files may not leave to strings: [Season < 2003] must be
    computable. *)
Definition orderable_season (t : csv) : Prop :=
  "Season" ∈ header t
  ∧ Forall (λ r, not_str_cell (cell_at (header t) r "Season"))
      (rows (frame_of_csv t)).

(** The header files of a query: the regular-season compact file when
    [compact], the regular-season detailed file otherwise. *)
Definition header_file (p : parsed) (compact : bool) : csv :=
  if compact then regular_comp p else regular_det p.

(** What every query relies on after a successful construction. *)
Record built (fs : filesystem) (datadir : string) (self : loc) (h : heap)
    (p : parsed) (ds : Dataset) : Prop := {
  built_holds : holds fs datadir p;
  built_self : h !! self = Some (OInstance ds);
  built_headers : ∀ compact,
    h !! headers_of ds compact
    = Some (OList (CStr <$> header (header_file p compact)));
  built_regular :
    h !! regular_results ds
    = Some (ODataFrame (merged (frame_of_csv (regular_comp p))
                          (frame_of_csv (regular_det p))));
  built_tourney :
    h !! tourney_results ds
    = Some (ODataFrame (merged (frame_of_csv (tourney_comp p))
                          (frame_of_csv (tourney_det p))));
  built_teams : ∃ d,
    dict_of_columns (frame_of_csv (teams_file p)) "Team_Id" "Team_Name"
    = inr d
    ∧ h !! teams ds = Some (ODict d);
  built_seasons :
    h !! seasons ds = Some (ODataFrame (frame_of_csv (seasons_file p)));
  built_seeds :
    h !! seeds ds = Some (ODataFrame (frame_of_csv (seeds_file p)));
  built_regular_season : "Season" ∈ header (regular_comp p);
  built_tourney_season : "Season" ∈ header (tourney_comp p)
}.

End Spec.

(** ** A small data directory, used to run the model *)

Module Sample.
Import Pandas Py DatasetPy Spec.

Definition basic_header : list string :=
  ["Season"; "Daynum"; "Wteam"; "Wscore"; "Lteam"; "Lscore"; "Wloc"; "Numot"].

Definition extended_header : list string :=
  basic_header ++ ["Wfgm"; "Lfgm"].

Definition game (season day w ws l ls : Z) (wloc : string) (ot : Z)
  : list cell :=
  [CInt season; CInt day; CInt w; CInt ws; CInt l; CInt ls; CStr wloc; CInt ot].

Definition regular_compact : csv :=
  Csv basic_header
    [ game 1985 20 1228 81 1328 64 "N" 0;
      game 2002 25 1106 77 1354 70 "H" 0;
      game 2003 10 1104 68 1328 62 "N" 0 ].

Definition regular_detailed : csv :=
  Csv extended_header
    [ game 2003 10 1104 68 1328 62 "N" 0 ++ [CInt 27; CInt 22];
      game 2004 11 1272 70 1393 63 "N" 1 ++ [CInt 26; CInt 24] ].

Definition tourney_compact : csv :=
  Csv basic_header
    [ game 1985 136 1116 63 1234 54 "N" 0;
      game 2003 134 1421 92 1411 84 "N" 1 ].

Definition tourney_detailed : csv :=
  Csv extended_header
    [ game 2003 134 1421 92 1411 84 "N" 1 ++ [CInt 32; CInt 29] ].

Definition teams_csv : csv :=
  Csv ["Team_Id"; "Team_Name"]
    [ [CInt 1101; CStr "Abilene Chr"];
      [CInt 1102; CStr "Air Force"];
      [CInt 1103; CStr "Akron"] ].

Definition seasons_csv : csv :=
  Csv ["Season"; "Dayzero"; "Regionw"]
    [ [CInt 1986; CStr "10/28/1985"; CStr "East"];
      [CInt 1985; CStr "10/29/1984"; CStr "East"];
      [CInt 1986; CStr "10/28/1985"; CStr "West"] ].

Definition seeds_csv : csv :=
  Csv ["Season"; "Seed"; "Team"]
    [ [CInt 1985; CStr "W01"; CInt 1207];
      [CInt 1985; CStr "W02"; CInt 1210];
      [CInt 1986; CStr "W01"; CInt 1181];
      [CInt 1985; CStr "X16"; CInt 1207] ].

Definition slots_csv : csv :=
  Csv ["Season"; "Slot"; "Strongseed"; "Weakseed"]
    [ [CInt 1985; CStr "R1W1"; CStr "W01"; CStr "W16"] ].

Fixpoint assoc (files : list (string * csv)) (path : string) : option csv :=
  match files with
  | [] => None
  | (p, t) :: files' => if decide (path = p) then Some t else assoc files' path
  end.

Definition files : list (string * csv) :=
  [ ("d/RegularSeasonCompactResults.csv", regular_compact);
    ("d/TourneyCompactResults.csv", tourney_compact);
    ("d/RegularSeasonDetailedResults.csv", regular_detailed);
    ("d/TourneyDetailedResults.csv", tourney_detailed);
    ("d/Teams.csv", teams_csv);
    ("d/Seasons.csv", seasons_csv);
    ("d/TourneySeeds.csv", seeds_csv);
    ("d/TourneySlots.csv", slots_csv) ].

(** The file system that holds the listed tables and nothing else. *)
Definition directory (files : list (string * csv)) : filesystem :=
  Files (λ path, from_option Table Absent (assoc files path)).

Definition fs : filesystem := directory files.


Definition parsed_files : parsed :=
  Parsed regular_compact tourney_compact regular_detailed tourney_detailed
    teams_csv seasons_csv seeds_csv slots_csv.

(** The heap after [Dataset("d/")] on an empty heap; the instance is object
    8. *)
Definition heap1 : heap := (__init__ fs "d/" []).2.

(** A second directory.  Its regular-season files record one more column,
    the attendance ("Crowd"), after the basic ones; its tournament files are
    those of the first directory and have no such column. *)
Definition crowd_header : list string := basic_header ++ ["Crowd"].

Definition crowd_extended_header : list string :=
  crowd_header ++ ["Wfgm"; "Lfgm"].

Definition regular_compact2 : csv :=
  Csv crowd_header
    [ game 1985 20 1228 81 1328 64 "N" 0 ++ [CInt 5200];
      game 2003 10 1104 68 1328 62 "N" 0 ++ [CInt 8100] ].

Definition regular_detailed2 : csv :=
  Csv crowd_extended_header
    [ game 2003 10 1104 68 1328 62 "N" 0 ++ [CInt 8100; CInt 27; CInt 22] ].

Definition files2 : list (string * csv) :=
  [ ("e/RegularSeasonCompactResults.csv", regular_compact2);
    ("e/TourneyCompactResults.csv", tourney_compact);
    ("e/RegularSeasonDetailedResults.csv", regular_detailed2);
    ("e/TourneyDetailedResults.csv", tourney_detailed);
    ("e/Teams.csv", teams_csv);
    ("e/Seasons.csv", seasons_csv);
    ("e/TourneySeeds.csv", seeds_csv);
    ("e/TourneySlots.csv", slots_csv) ].

Definition fs2 : filesystem := directory files2.

Definition heap2 : heap := (__init__ fs2 "e/" []).2.

(** A third directory.  The one game of its detailed regular-season file
    records, in a column that the compact file lacks, a count that no
    float64 holds: 2^53 + 1. *)
Definition regular_compact3 : csv :=
  Csv basic_header [ game 1985 20 1228 81 1328 64 "N" 0 ].

Definition regular_detailed3 : csv :=
  Csv extended_header
    [ game 2003 10 1104 68 1328 62 "N" 0 ++ [CInt 9007199254740993; CInt 22] ].

Definition files3 : list (string * csv) :=
  [ ("v/RegularSeasonCompactResults.csv", regular_compact3);
    ("v/TourneyCompactResults.csv", tourney_compact);
    ("v/RegularSeasonDetailedResults.csv", regular_detailed3);
    ("v/TourneyDetailedResults.csv", tourney_detailed);
    ("v/Teams.csv", teams_csv);
    ("v/Seasons.csv", seasons_csv);
    ("v/TourneySeeds.csv", seeds_csv);
    ("v/TourneySlots.csv", slots_csv) ].

Definition fs3 : filesystem := directory files3.

Definition parsed_files3 : parsed :=
  Parsed regular_compact3 tourney_compact regular_detailed3 tourney_detailed
    teams_csv seasons_csv seeds_csv slots_csv.

Definition heap3 : heap := (__init__ fs3 "v/" []).2.

(** A fourth directory.  Its compact regular-season file records the
    attendance, its detailed file does not: the basic columns are no subset
    of the extended ones. *)
Definition files4 : list (string * csv) :=
  [ ("x/RegularSeasonCompactResults.csv", regular_compact2);
    ("x/TourneyCompactResults.csv", tourney_compact);
    ("x/RegularSeasonDetailedResults.csv", regular_detailed);
    ("x/TourneyDetailedResults.csv", tourney_detailed);
    ("x/Teams.csv", teams_csv);
    ("x/Seasons.csv", seasons_csv);
    ("x/TourneySeeds.csv", seeds_csv);
    ("x/TourneySlots.csv", slots_csv) ].

Definition fs4 : filesystem := directory files4.

Definition parsed_files4 : parsed :=
  Parsed regular_compact2 tourney_compact regular_detailed tourney_detailed
    teams_csv seasons_csv seeds_csv slots_csv.

Definition heap4 : heap := (__init__ fs4 "x/" []).2.

(** A teams file and a seeds file with missing team ids.  In [teams_blank]
    the ids are strings, so both blanks are [numpy.nan]; in [seeds_blank] the
    teams are numbers, so each blank is a NaN of its own. *)
Definition teams_blank : csv :=
  Csv ["Team_Id"; "Team_Name"]
    [ [CStr "T1"; CStr "Abilene Chr"];
      [CNaObj; CStr "Ghost"];
      [CNaObj; CStr "Phantom"] ].

Definition seeds_blank : csv :=
  Csv ["Season"; "Seed"; "Team"]
    [ [CInt 1985; CStr "W01"; CNull];
      [CInt 1985; CStr "W02"; CNull];
      [CInt 1985; CStr "W03"; CInt 1207] ].

Definition files5 : list (string * csv) :=
  [ ("n/RegularSeasonCompactResults.csv", regular_compact);
    ("n/TourneyCompactResults.csv", tourney_compact);
    ("n/RegularSeasonDetailedResults.csv", regular_detailed);
    ("n/TourneyDetailedResults.csv", tourney_detailed);
    ("n/Teams.csv", teams_blank);
    ("n/Seasons.csv", seasons_csv);
    ("n/TourneySeeds.csv", seeds_blank);
    ("n/TourneySlots.csv", slots_csv) ].

Definition fs5 : filesystem := directory files5.

Definition heap5 : heap := (__init__ fs5 "n/" []).2.

(** The file system [fs] with the file [f] at [path]. *)
Definition with_file (path : string) (f : file) (fs : filesystem)
  : filesystem :=
  Files (λ q, if decide (q = path) then f else file_at fs q).

(** The object a computation returns, read from the heap it hands on. *)
Definition returned (r : res loc * heap) : res obj :=
  match r.1 with
  | inl e => inl e
  | inr l => match r.2 !! l with
             | Some o => inr o
             | None => inl (BadRef l)
             end
  end.

End Sample.

(** ** The two game queries, side by side *)

Module Shape.
Import Pandas Py DatasetPy Spec.

(** The body that [getRegularGames] and [getTourneyGames] share, over the
    attribute [results] that holds the table. *)
Definition games_body (results : Dataset → loc)
    (self : loc) (season : pyarg) (compact : bool) : M loc :=
  ds <- get_instance self ;;
  let season := match season with
                | PyInt z => PyIter [CInt z]
                | _ => season
                end in
  headers <- get_list (if compact then compact_headers ds
                       else detailed_headers ds) ;;
  table <- get_frame (results ds) ;;
  match season with
  | PyNone =>
      out <- lift (getitem_list table headers) ;;
      alloc (ODataFrame out)
  | _ =>
      s <- lift (getitem_col table "Season") ;;
      values <- lift (py_list season) ;;
      out <- lift (getitem_list (loc_mask table (isin s values)) headers) ;;
      alloc (ODataFrame out)
  end.

(** The frame a query computes before it is allocated. *)
Definition query (table : DataFrame) (hs : list cell) (season : pyarg)
  : res DataFrame :=
  match season with
  | PyNone => getitem_list table hs
  | PyInt z =>
      match getitem_col table "Season" with
      | inl e => inl e
      | inr s => getitem_list (loc_mask table (isin s [CInt z])) hs
      end
  | PyIter values =>
      match getitem_col table "Season" with
      | inl e => inl e
      | inr s => getitem_list (loc_mask table (isin s values)) hs
      end
  | PyBool _ | PyFloat _ =>
      match getitem_col table "Season" with
      | inl e => inl e
      | inr s => inl TypeError
      end
  end.

End Shape.

(** ** Further notions, for the properties beyond the specification *)

Module More.
Import Pandas Py DatasetPy Spec.

(** The object a call returns, read from the heap the call hands on, or the
    exception it raises. *)
Definition outcome (r : res loc * heap) : res obj :=
  match r.1 with
  | inl e => inl e
  | inr l => match r.2 !! l with
             | Some o => inr o
             | None => inl (BadRef l)
             end
  end.

(** The dict [getSeeds] computes before it allocates it. *)
Definition seeds_result (df : DataFrame) (season : Z) : res (gmap dkey cell) :=
  match getitem_col df "Season" with
  | inl e => inl e
  | inr s => dict_of_columns (loc_mask df (series_eq s season)) "Team" "Seed"
  end.

#[global] Instance not_str_cell_dec x : Decision (not_str_cell x).
Proof. destruct x; simpl; apply _. Defined.

(** Some row of the file has a string for Season. *)
Definition season_has_string (t : csv) : Prop :=
  Exists (λ r, ∃ s, cell_at (header t) r "Season" = CStr s)
    (rows (frame_of_csv t)).

(** The locations an instance occupies: its eight attribute objects and the
    instance itself. *)
Definition locations (self : loc) (ds : Dataset) : list loc :=
  [ regular_results ds; tourney_results ds; compact_headers ds;
    detailed_headers ds; teams ds; seasons ds; seeds ds; slots ds; self ].

(** The paths of the eight files, in the order the constructor reads them. *)
Definition path_regular_comp (datadir : string) : string :=
  datadir +:+ "RegularSeasonCompactResults.csv".
Definition path_tourney_comp (datadir : string) : string :=
  datadir +:+ "TourneyCompactResults.csv".
Definition path_regular_det (datadir : string) : string :=
  datadir +:+ "RegularSeasonDetailedResults.csv".
Definition path_tourney_det (datadir : string) : string :=
  datadir +:+ "TourneyDetailedResults.csv".
Definition path_teams (datadir : string) : string :=
  datadir +:+ "Teams.csv".
Definition path_seasons (datadir : string) : string :=
  datadir +:+ "Seasons.csv".
Definition path_seeds (datadir : string) : string :=
  datadir +:+ "TourneySeeds.csv".
Definition path_slots (datadir : string) : string :=
  datadir +:+ "TourneySlots.csv".

(** Two file systems hold the same files in [datadir], TourneySlots.csv
    left aside. *)
Definition same_but_slots (fs fs' : filesystem) (datadir : string) : Prop :=
  fs (path_regular_comp datadir) = fs' (path_regular_comp datadir)
  ∧ fs (path_tourney_comp datadir) = fs' (path_tourney_comp datadir)
  ∧ fs (path_regular_det datadir) = fs' (path_regular_det datadir)
  ∧ fs (path_tourney_det datadir) = fs' (path_tourney_det datadir)
  ∧ fs (path_teams datadir) = fs' (path_teams datadir)
  ∧ fs (path_seasons datadir) = fs' (path_seasons datadir)
  ∧ fs (path_seeds datadir) = fs' (path_seeds datadir).



End More.

(** Directories that make the constructor raise. *)
Module Broken.
Import Pandas Py DatasetPy Spec Sample.

(** The compact regular-season file has no Season column (it is the teams
    file); Teams.csv and the files read after it are absent. *)
Definition fs_no_season : filesystem :=
  directory
    [ ("b/RegularSeasonCompactResults.csv", teams_csv);
      ("b/TourneyCompactResults.csv", tourney_compact);
      ("b/RegularSeasonDetailedResults.csv", regular_detailed);
      ("b/TourneyDetailedResults.csv", tourney_detailed) ].

(** A teams file whose columns are named as in later editions of the data
    set. *)
Definition teams_renamed : csv :=
  Csv ["TeamID"; "TeamName"] [[CInt 1101; CStr "Abilene Chr"]].

Definition fs_teams_renamed : filesystem :=
  directory
    [ ("c/RegularSeasonCompactResults.csv", regular_compact);
      ("c/TourneyCompactResults.csv", tourney_compact);
      ("c/RegularSeasonDetailedResults.csv", regular_detailed);
      ("c/TourneyDetailedResults.csv", tourney_detailed);
      ("c/Teams.csv", teams_renamed) ].

(** A seeds file whose team column is named as in later editions, and a
    seasons file without a Season column. *)
Definition seeds_renamed : csv :=
  Csv ["Season"; "Seed"; "TeamID"] [[CInt 1985; CStr "W01"; CInt 1207]].

Definition seasons_renamed : csv :=
  Csv ["Year"; "Dayzero"] [[CInt 1985; CStr "10/29/1984"]].

Definition fs_seeds_renamed : filesystem :=
  directory
    [ ("g/RegularSeasonCompactResults.csv", regular_compact);
      ("g/TourneyCompactResults.csv", tourney_compact);
      ("g/RegularSeasonDetailedResults.csv", regular_detailed);
      ("g/TourneyDetailedResults.csv", tourney_detailed);
      ("g/Teams.csv", teams_csv);
      ("g/Seasons.csv", seasons_renamed);
      ("g/TourneySeeds.csv", seeds_renamed);
      ("g/TourneySlots.csv", slots_csv) ].

Definition parsed_renamed : parsed :=
  Parsed regular_compact tourney_compact regular_detailed tourney_detailed
    teams_csv seasons_renamed seeds_renamed slots_csv.

Definition heap_renamed : heap := (__init__ fs_seeds_renamed "g/" []).2.

(** A directory whose Seasons.csv lists every season once, not in
    chronological order. *)
Definition seasons_distinct : csv :=
  Csv ["Season"; "Dayzero"]
    [ [CInt 2017; CStr "10/31/2016"];
      [CInt 1985; CStr "10/29/1984"];
      [CInt 2016; CStr "11/02/2015"] ].

Definition fs_distinct : filesystem :=
  directory
    [ ("k/RegularSeasonCompactResults.csv", regular_compact);
      ("k/TourneyCompactResults.csv", tourney_compact);
      ("k/RegularSeasonDetailedResults.csv", regular_detailed);
      ("k/TourneyDetailedResults.csv", tourney_detailed);
      ("k/Teams.csv", teams_csv);
      ("k/Seasons.csv", seasons_distinct);
      ("k/TourneySeeds.csv", seeds_csv);
      ("k/TourneySlots.csv", slots_csv) ].

Definition parsed_distinct : parsed :=
  Parsed regular_compact tourney_compact regular_detailed tourney_detailed
    teams_csv seasons_distinct seeds_csv slots_csv.

Definition heap_distinct : heap := (__init__ fs_distinct "k/" []).2.

(** The first sample directory with another bracket layout. *)
Definition fs_other_slots : filesystem :=
  directory
    (("d/TourneySlots.csv",
      Csv ["Season"; "Slot"; "Strongseed"; "Weakseed"]
        [ [CInt 1985; CStr "R1W1"; CStr "W01"; CStr "W16"];
          [CInt 1985; CStr "R1W2"; CStr "W02"; CStr "W15"] ])
     :: files).

Definition heap_other_slots : heap := (__init__ fs_other_slots "d/" []).2.

(** The first sample directory with a TourneySlots.csv of zero bytes, and
    with a TourneyCompactResults.csv whose lines pandas cannot split. *)
Definition fs_empty_slots : filesystem :=
  with_file "d/TourneySlots.csv" (Unreadable EmptyDataError) fs.

Definition fs_bad_tourney : filesystem :=
  with_file "d/TourneyCompactResults.csv" (Unreadable ParserError) fs.

End Broken.

(** ** Facts about the table operations *)

Module PandasFacts.
Import Pandas Spec.

Lemma col_index_lookup c cols i :
  col_index c cols = Some i → cols !! i = Some c.
Proof.
  revert i. induction cols as [|c' cs IH]; intros i; simpl; [done|].
  case_decide as Hc.
  - intros [= <-]. by subst.
  - destruct (col_index c cs) as [j|] eqn:Hj; simpl; [|done].
    intros [= <-]. by apply IH.
Qed.

Lemma col_index_None c cols : col_index c cols = None ↔ c ∉ cols.
Proof.
  induction cols as [|c' cs IH]; simpl.
  - split; [intros _; apply not_elem_of_nil | done].
  - rewrite not_elem_of_cons. case_decide as Hc.
    + split; [done | intros [? _]; done].
    + destruct (col_index c cs) eqn:Hj; simpl.
      * split; [done|]. intros [_ Hn]. by apply IH in Hn.
      * split; [|done]. intros _. split; [done | by apply IH].
Qed.


(** A cell of a row laid out on new columns is the cell of the original
    row. *)
Lemma cell_at_reindex from cols r c :
  c ∈ cols → cell_at cols (reindex_row from cols r) c = cell_at from r c.
Proof.
  intros Hin. unfold cell_at at 1.
  destruct (col_index c cols) as [i|] eqn:Hi.
  - apply col_index_lookup in Hi. simpl.
    by rewrite list_lookup_fmap, Hi.
  - by apply col_index_None in Hi.
Qed.

Lemma cell_at_project cols keys r s :
  CStr s ∈ keys →
  cell_at (key_name <$> keys) (project_row cols keys r) s = cell_at cols r s.
Proof.
  intros Hin. unfold cell_at at 1.
  destruct (col_index s (key_name <$> keys)) as [i|] eqn:Hi.
  - apply col_index_lookup in Hi. simpl.
    rewrite list_lookup_fmap in Hi. rewrite list_lookup_fmap.
    destruct (keys !! i) as [k|]; simpl in *; [|done].
    by injection Hi as ->.
  - apply col_index_None in Hi. exfalso. apply Hi.
    by apply (list_elem_of_fmap_2' key_name _ (CStr s)).
Qed.

Lemma filter_all {A} (P : A → Prop) `{!∀ x, Decision (P x)} (l : list A) :
  Forall P l → filter P l = l.
Proof.
  induction 1 as [|x l Hx _ IH]; [done|].
  by rewrite filter_cons_True, IH.
Qed.

Lemma filter_none {A} (P : A → Prop) `{!∀ x, Decision (P x)} (l : list A) :
  Forall (λ x, ¬ P x) l → filter P l = [].
Proof.
  induction 1 as [|x l Hx _ IH]; [done|].
  by rewrite filter_cons_False.
Qed.

(** A mask computed row by row selects what [filter] keeps. *)
Lemma select_rows_filter (P : row → Prop) `{!∀ r, Decision (P r)} rs :
  select_rows rs ((λ r, bool_decide (P r)) <$> rs) = filter P rs.
Proof.
  induction rs as [|r rs IH]; [done|].
  rewrite fmap_cons, filter_cons. cbn [select_rows]. rewrite IH.
  case_bool_decide; by destruct (decide (P r)).
Qed.

Lemma series_lt_fmap {A} (f : A → cell) (l : list A) n mask :
  series_lt (f <$> l) n = inr mask →
  mask = (λ a, bool_decide (int_below n (f a))) <$> l.
Proof.
  revert mask. induction l as [|a l IH]; intros mask.
  - by intros [= <-].
  - rewrite !fmap_cons. cbn [series_lt].
    destruct (f a) as [z|t| |] eqn:Hfa; cbn [cell_lt int_below]; [| done | |];
      (destruct (series_lt (f <$> l) n) as [e|bs]; [done|];
       intros [= <-]; f_equal; by apply IH).
Qed.

Lemma series_lt_total s n :
  Forall not_str_cell s → ∃ mask, series_lt s n = inr mask.
Proof.
  induction 1 as [|x s Hx _ [mask IH]]; simpl; [by eexists|].
  rewrite IH. destruct x; simpl in *; [by eexists | done | by eexists..].
Qed.

Lemma series_lt_inr_not_str_cell s n mask :
  series_lt s n = inr mask → Forall not_str_cell s.
Proof.
  revert mask. induction s as [|x s IH]; intros mask; simpl; [by constructor|].
  destruct x; simpl; [| done | |];
    (destruct (series_lt s n) eqn:E; [done|]; intros _;
     constructor; [done | by eapply IH]).
Qed.

Lemma union_columns_pair a b :
  union_columns [a; b] = union_schema (columns a) (columns b).
Proof.
  unfold union_columns, union_schema. simpl.
  rewrite (filter_all (λ c, c ∉ [])); [done|].
  apply Forall_forall. intros c _. apply not_elem_of_nil.
Qed.

Lemma elem_of_union_schema c a b : c ∈ union_schema a b ↔ c ∈ a ∨ c ∈ b.
Proof.
  unfold union_schema. rewrite elem_of_app, list_elem_of_filter.
  destruct (decide (c ∈ a)); tauto.
Qed.

Lemma concat_pair (a b : operand) :
  concat [a; b] =
  let cols := union_schema (columns (frame a)) (columns (frame b)) in
  Frame cols
    ((concat_row [a; b] cols a <$> rows (frame a))
     ++ (concat_row [a; b] cols b <$> rows (frame b))).
Proof.
  unfold concat. rewrite !fmap_cons, fmap_nil, union_columns_pair.
  cbv zeta. f_equal. simpl. by rewrite app_nil_r.
Qed.







End PandasFacts.

(** ** Running the monad *)

Module Run.
Import Pandas Py DatasetPy Spec PandasFacts.

Lemma bind_inr_inv {A B} (m : M A) (k : A → M B) h b h' :
  bind m k h = (inr b, h') →
  ∃ a h1, m h = (inr a, h1) ∧ k a h1 = (inr b, h').
Proof.
  unfold bind. destruct (m h) as [[e|a] h1]; [done|]. eauto.
Qed.

Lemma bind_inr {A B} (m : M A) (k : A → M B) h a h1 :
  m h = (inr a, h1) → bind m k h = k a h1.
Proof. unfold bind. by intros ->. Qed.

Lemma bind_inl {A B} (m : M A) (k : A → M B) h e h1 :
  m h = (inl e, h1) → bind m k h = (inl e, h1).
Proof. unfold bind. by intros ->. Qed.

Lemma lift_inr_inv {A} (r : res A) h a h' :
  lift r h = (inr a, h') → r = inr a ∧ h' = h.
Proof. destruct r; [done|]. by intros [= -> ->]. Qed.

Lemma alloc_inv o h l h' :
  alloc o h = (inr l, h') → l = length h ∧ h' = h ++ [o].
Proof. by intros [= <- <-]. Qed.

Lemma read_csv_inv fs path h df h' :
  read_csv fs path h = (inr df, h') →
  ∃ t, fs path = Some t ∧ df = frame_of_csv t ∧ h' = h.
Proof.
  unfold read_csv, table_at. destruct (file_at fs path) as [|e|t]; [done..|].
  intros [= <- <-]. eauto.
Qed.

Lemma read_csv_table (fs : filesystem) path t :
  fs path = Some t → read_csv fs path = ret (frame_of_csv t).
Proof.
  unfold read_csv, table_at. by destruct (file_at fs path); intros [= ->].
Qed.

Lemma read_csv_error fs path e :
  read_error fs path = Some e → read_csv fs path = raise e.
Proof.
  unfold read_csv, read_error. by destruct (file_at fs path); intros [= ->].
Qed.

(** Reading the heap of a constructed instance. *)
Lemma lookup_new (h0 new : heap) (k : nat) :
  (h0 ++ new) !! (length h0 + k)%nat = new !! k.
Proof.
  rewrite lookup_app_r by lia. f_equal. lia.
Qed.

Lemma lookup_new_0 (h0 new : heap) : (h0 ++ new) !! length h0 = new !! 0%nat.
Proof. rewrite <-(lookup_new h0 new 0). f_equal. lia. Qed.

Lemma get_instance_run h l a :
  h !! l = Some (OInstance a) → get_instance l h = (inr a, h).
Proof. unfold get_instance. intros H. by rewrite H. Qed.

Lemma get_frame_run h l df :
  h !! l = Some (ODataFrame df) → get_frame l h = (inr df, h).
Proof. unfold get_frame. intros H. by rewrite H. Qed.

Lemma get_list_run h l x :
  h !! l = Some (OList x) → get_list l h = (inr x, h).
Proof. unfold get_list. intros H. by rewrite H. Qed.

Lemma get_dict_run h l d :
  h !! l = Some (ODict d) → get_dict l h = (inr d, h).
Proof. unfold get_dict. intros H. by rewrite H. Qed.

End Run.

(** ** The constructor *)

Module Init.
Import Pandas Py DatasetPy Spec PandasFacts Run.

Lemma loc_mask_season_lt comp mask :
  series_lt ((λ r, cell_at (columns comp) r "Season") <$> rows comp) 2003
    = inr mask →
  loc_mask comp mask = Frame (columns comp) (basic_era comp).
Proof.
  intros ->%series_lt_fmap. unfold loc_mask. f_equal.
  apply (select_rows_filter (season_before 2003 (columns comp))).
Qed.

(** When the merge of a compact and a detailed table succeeds, its result is
    the table [merged]. *)
Lemma merge_results_inv comp det m :
  merge_results comp det = inr m →
  "Season" ∈ columns comp
  ∧ Forall (λ r, not_str_cell (cell_at (columns comp) r "Season")) (rows comp)
  ∧ m = merged comp det.
Proof.
  unfold merge_results, getitem_col. case_decide as Hin; [|done].
  destruct (series_lt _ 2003) as [e|mask] eqn:Hlt; [done|].
  intros [= <-]. split; [done|]. split.
  - apply series_lt_inr_not_str_cell in Hlt.
    by rewrite Forall_fmap in Hlt.
  - by rewrite (loc_mask_season_lt _ _ Hlt).
Qed.

Lemma merge_results_run comp det :
  "Season" ∈ columns comp →
  Forall (λ r, not_str_cell (cell_at (columns comp) r "Season")) (rows comp) →
  merge_results comp det = inr (merged comp det).
Proof.
  intros Hin Hns. unfold merge_results, getitem_col.
  rewrite decide_True by done.
  destruct (series_lt_total
              ((λ r, cell_at (columns comp) r "Season") <$> rows comp) 2003)
    as [mask Hlt]; [by rewrite Forall_fmap|].
  by rewrite Hlt, (loc_mask_season_lt _ _ Hlt).
Qed.

Ltac init_step H :=
  let H1 := fresh "Hstep" in
  apply bind_inr_inv in H as (? & ? & H1 & H); cbv beta in H;
  first
    [ apply read_csv_inv in H1 as (? & ? & -> & ->)
    | apply lift_inr_inv in H1 as [H1 ->]
    | apply alloc_inv in H1 as [-> ->] ].

(** What a successful construction has read and built. *)
Lemma init_inv fs datadir (h0 : heap) self h :
  __init__ fs datadir h0 = (inr self, h) →
  ∃ p d,
    holds fs datadir p
    ∧ orderable_season (regular_comp p)
    ∧ orderable_season (tourney_comp p)
    ∧ dict_of_columns (frame_of_csv (teams_file p)) "Team_Id" "Team_Name"
      = inr d
    ∧ self = (length h0 + 8)%nat
    ∧ h = h0 ++ init_objects (length h0) datadir p d.
Proof.
  unfold __init__. intros H.
  do 19 init_step H.
  apply alloc_inv in H as [-> ->].
  repeat match goal with
         | Hm : merge_results _ _ = inr _ |- _ =>
             apply merge_results_inv in Hm as (? & ? & ->)
         end.
  eexists (Parsed _ _ _ _ _ _ _ _), _.
  split; [repeat split; simpl; eassumption|].
  split; [by split|]. split; [by split|].
  split; [eassumption|].
  rewrite !length_app. simpl. split; [lia|].
  rewrite <-!app_assoc. simpl. unfold init_objects, instance_at.
  rewrite <-!Nat.add_assoc. done.
Qed.


(** The heap of a constructed instance, attribute by attribute. *)
Section constructed.
Context (h0 : heap) (datadir : string) (p : parsed) (d : gmap dkey cell).
Let n := length h0.
Let h : heap := h0 ++ init_objects n datadir p d.
Let ds := instance_at n datadir.

Lemma at_self : h !! (n + 8)%nat = Some (OInstance ds).
Proof. apply lookup_new. Qed.

Lemma at_regular_results :
  h !! regular_results ds
  = Some (ODataFrame (merged (frame_of_csv (regular_comp p))
                        (frame_of_csv (regular_det p)))).
Proof. apply lookup_new_0. Qed.

Lemma at_tourney_results :
  h !! tourney_results ds
  = Some (ODataFrame (merged (frame_of_csv (tourney_comp p))
                        (frame_of_csv (tourney_det p)))).
Proof. apply lookup_new. Qed.

Lemma at_compact_headers :
  h !! compact_headers ds
  = Some (OList (columns_tolist (frame_of_csv (regular_comp p)))).
Proof. apply lookup_new. Qed.

Lemma at_detailed_headers :
  h !! detailed_headers ds
  = Some (OList (columns_tolist (frame_of_csv (regular_det p)))).
Proof. apply lookup_new. Qed.

Lemma at_teams : h !! teams ds = Some (ODict d).
Proof. apply lookup_new. Qed.

Lemma at_seasons :
  h !! seasons ds = Some (ODataFrame (frame_of_csv (seasons_file p))).
Proof. apply lookup_new. Qed.

Lemma at_seeds :
  h !! seeds ds = Some (ODataFrame (frame_of_csv (seeds_file p))).
Proof. apply lookup_new. Qed.

Lemma at_slots :
  h !! slots ds = Some (ODataFrame (frame_of_csv (slots_file p))).
Proof. apply lookup_new. Qed.
End constructed.

End Init.

(** ** The two game queries *)

Module Games.
Import Pandas Py DatasetPy Spec Shape PandasFacts Run.

Lemma getRegularGames_body : getRegularGames = games_body regular_results.
Proof. reflexivity. Qed.

Lemma getTourneyGames_body : getTourneyGames = games_body tourney_results.
Proof. reflexivity. Qed.

Lemma games_body_run results (h : heap) self ds hs table season compact :
  h !! self = Some (OInstance ds) →
  h !! headers_of ds compact = Some (OList hs) →
  h !! results ds = Some (ODataFrame table) →
  games_body results self season compact h =
  match query table hs season with
  | inr out => (inr (length h), h ++ [ODataFrame out])
  | inl e => (inl e, h)
  end.
Proof.
  intros Hself Hhs Htab. unfold games_body.
  rewrite (bind_inr _ _ _ _ _ (get_instance_run _ _ _ Hself)).
  rewrite (bind_inr _ _ _ _ _ (get_list_run _ _ _ Hhs)).
  rewrite (bind_inr _ _ _ _ _ (get_frame_run _ _ _ Htab)).
  unfold query, bind, lift, ret, raise, alloc, py_list.
  destruct season as [|z|b|x|values];
    repeat (case_match; simplify_eq; try done).
Qed.

Lemma getitem_list_run df hs :
  Forall (key_in_columns (columns df)) hs →
  getitem_list df hs
  = inr (Frame (key_name <$> hs) (project_row (columns df) hs <$> rows df)).
Proof.
  intros Hall. unfold getitem_list.
  rewrite (filter_none (λ k, ¬ key_in_columns (columns df) k)); [done|].
  eapply Forall_impl; [done|]. tauto.
Qed.

Lemma getitem_list_missing df hs :
  ¬ Forall (key_in_columns (columns df)) hs →
  missing_from df hs ≠ []
  ∧ getitem_list df hs = inl (KeyError (missing_from df hs)).
Proof.
  intros Hnot. unfold getitem_list, missing_from.
  destruct (filter _ hs) as [|k ks] eqn:Hf; [|done].
  exfalso. apply Hnot, Forall_forall. intros k Hk.
  destruct (decide (key_in_columns (columns df) k)) as [|Hn]; [done|].
  by destruct (filter_nil_not_elem_of _ _ k Hf Hn).
Qed.

Lemma missing_from_nil df hs :
  Forall (key_in_columns (columns df)) hs → missing_from df hs = [].
Proof.
  intros Hall. apply (filter_none (λ k, ¬ key_in_columns (columns df) k)).
  eapply Forall_impl; [done|]. tauto.
Qed.

Lemma loc_mask_isin table values :
  loc_mask table
    (isin ((λ r, cell_at (columns table) r "Season") <$> rows table) values)
  = Frame (columns table)
      (filter (season_among values (columns table)) (rows table)).
Proof.
  unfold loc_mask, isin. f_equal. rewrite <-list_fmap_compose.
  apply (select_rows_filter (season_among values (columns table))).
Qed.

Lemma query_none table hs : query table hs PyNone = getitem_list table hs.
Proof. done. Qed.

Lemma query_int table hs z :
  query table hs (PyInt z) = query table hs (PyIter [CInt z]).
Proof. done. Qed.

Lemma query_iter table hs values :
  "Season" ∈ columns table →
  query table hs (PyIter values)
  = getitem_list
      (Frame (columns table)
         (filter (season_among values (columns table)) (rows table))) hs.
Proof.
  intros Hin. unfold query, getitem_col. rewrite decide_True by done.
  by rewrite loc_mask_isin.
Qed.

(** With every selected label a column, a query answers. *)
Lemma query_all table hs :
  Forall (key_in_columns (columns table)) hs →
  query table hs PyNone = inr (answer table hs (λ _, True)).
Proof.
  intros Hall. rewrite query_none, getitem_list_run by done.
  unfold answer. by rewrite (filter_all (λ _, True)) by by apply Forall_true.
Qed.

Lemma query_among table hs values :
  "Season" ∈ columns table →
  Forall (key_in_columns (columns table)) hs →
  query table hs (PyIter values)
  = inr (answer table hs (season_among values (columns table))).
Proof.
  intros Hin Hall. rewrite query_iter by done.
  by rewrite getitem_list_run by done.
Qed.

Lemma query_scalar table hs season :
  "Season" ∈ columns table →
  (∃ b, season = PyBool b) ∨ (∃ x, season = PyFloat x) →
  query table hs season = inl TypeError.
Proof.
  intros Hin [[b ->]|[x ->]]; unfold query, getitem_col;
    by rewrite decide_True by done.
Qed.

Lemma query_missing table hs season :
  "Season" ∈ columns table →
  ¬ Forall (key_in_columns (columns table)) hs →
  season = PyNone ∨ (∃ z, season = PyInt z) ∨ (∃ vs, season = PyIter vs) →
  query table hs season = inl (KeyError (missing_from table hs)).
Proof.
  intros Hin Hnot Hs.
  assert (∀ vs, query table hs (PyIter vs)
                = inl (KeyError (missing_from table hs))) as Hiter.
  { intros vs. rewrite query_iter by done.
    by apply (getitem_list_missing (Frame (columns table) _)). }
  destruct Hs as [->|[[z ->]|[vs ->]]].
  - rewrite query_none. by apply getitem_list_missing.
  - rewrite query_int. apply Hiter.
  - apply Hiter.
Qed.

Lemma key_name_columns (cols : list string) :
  key_name <$> (CStr <$> cols) = cols.
Proof.
  rewrite <-list_fmap_compose. induction cols as [|c cols IH]; [done|].
  simpl. by f_equal.
Qed.

Lemma headers_in_columns (cols sub : list string) :
  sub ⊆ cols → Forall (key_in_columns cols) (CStr <$> sub).
Proof.
  intros Hsub. apply Forall_fmap, Forall_forall. intros c Hc. by apply Hsub.
Qed.

Lemma headers_in_columns_inv (cols sub : list string) :
  Forall (key_in_columns cols) (CStr <$> sub) → sub ⊆ cols.
Proof.
  intros Hall c Hc. rewrite Forall_fmap, Forall_forall in Hall.
  by apply (Hall c).
Qed.

Lemma getitem_list_columns df hs out :
  getitem_list df hs = inr out → columns out = key_name <$> hs.
Proof.
  unfold getitem_list. destruct (filter _ hs); [|done]. by intros [= <-].
Qed.

(** Whatever the season, a frame a query computes has the selected labels
    as its columns, in their order. *)
Lemma query_columns table hs season out :
  query table hs season = inr out → columns out = key_name <$> hs.
Proof.
  unfold query.
  destruct season; try destruct (getitem_col table "Season"); try done;
    apply getitem_list_columns.
Qed.

Lemma games_body_inr results (h : heap) self ds hs table season compact l h' :
  h !! self = Some (OInstance ds) →
  h !! headers_of ds compact = Some (OList hs) →
  h !! results ds = Some (ODataFrame table) →
  games_body results self season compact h = (inr l, h') →
  ∃ out, query table hs season = inr out
         ∧ l = length h ∧ h' = h ++ [ODataFrame out].
Proof.
  intros Hself Hhs Htab.
  rewrite (games_body_run _ _ _ _ _ _ _ _ Hself Hhs Htab).
  destruct (query table hs season) as [e|out]; [done|].
  intros [= <- <-]. eauto.
Qed.

End Games.

(** ** The merged tables *)

Module Merge.
Import Pandas Py DatasetPy Spec PandasFacts Run Init.


Lemma columns_merged comp det :
  columns (merged comp det) = union_schema (columns comp) (columns det).
Proof. unfold merged. by rewrite concat_pair. Qed.

Lemma rows_merged comp det :
  rows (merged comp det)
  = (merged_basic_row comp det <$> basic_era comp)
    ++ (merged_extended_row comp det <$> rows det).
Proof. unfold merged. by rewrite concat_pair. Qed.

Lemma elem_of_columns_merged comp det c :
  c ∈ columns (merged comp det) ↔ c ∈ columns comp ∨ c ∈ columns det.
Proof. rewrite columns_merged. apply elem_of_union_schema. Qed.















End Merge.

(** ** Queries on a constructed instance *)

Module Built.
Import Pandas Py DatasetPy Spec Shape PandasFacts Run Init Games Merge.

Lemma init_built fs datadir (h0 : heap) self h :
  __init__ fs datadir h0 = (inr self, h) →
  ∃ p ds, built fs datadir self h p ds.
Proof.
  intros (p & d & Hp & [Hr _] & [Ht _] & Hd & -> & ->)%init_inv.
  exists p, (instance_at (length h0) datadir). split; try done.
  - apply at_self.
  - intros [|]; [apply at_compact_headers | apply at_detailed_headers].
  - apply at_regular_results.
  - apply at_tourney_results.
  - exists d. split; [done | apply at_teams].
  - apply at_seasons.
  - apply at_seeds.
Qed.

Lemma holds_inj fs datadir p q :
  holds fs datadir p → holds fs datadir q → p = q.
Proof.
  destruct p, q. unfold holds. simpl.
  intros (?&?&?&?&?&?&?&?) (?&?&?&?&?&?&?&?). f_equal; congruence.
Qed.

(** The same, for the files one already knows the directory to hold. *)
Lemma init_built_for fs datadir (h0 : heap) self h p :
  __init__ fs datadir h0 = (inr self, h) →
  holds fs datadir p →
  ∃ ds, built fs datadir self h p ds.
Proof.
  intros (q & ds & B)%init_built Hp.
  rewrite (holds_inj fs datadir p q Hp (built_holds _ _ _ _ _ _ B)).
  by exists ds.
Qed.

Lemma season_in_merged comp det :
  "Season" ∈ columns comp → "Season" ∈ columns (merged comp det).
Proof. intros H. apply Merge.elem_of_columns_merged. by left. Qed.

Lemma regular_headers_present p compact :
  Forall
    (key_in_columns
       (columns (merged (frame_of_csv (regular_comp p))
                   (frame_of_csv (regular_det p)))))
    (CStr <$> header (header_file p compact)).
Proof.
  apply headers_in_columns. intros c Hc. apply Merge.elem_of_columns_merged.
  destruct compact; [by left | by right].
Qed.

(** A query whose selected labels are all columns of its table answers by
    season. *)
Lemma games_body_answers results (h : heap) self ds hs table compact :
  h !! self = Some (OInstance ds) →
  h !! headers_of ds compact = Some (OList hs) →
  h !! results ds = Some (ODataFrame table) →
  "Season" ∈ columns table →
  Forall (key_in_columns (columns table)) hs →
  answers_by_season (games_body results) self compact h table hs.
Proof.
  intros Hself Hhs Htab Hin Hall.
  pose proof (λ season,
    games_body_run results h self ds hs table season compact Hself Hhs Htab)
    as Hrun.
  split; [|split; [|split]].
  - rewrite Hrun, query_none, getitem_list_run by done. done.
  - intros z. by rewrite Hrun, query_int, query_among by done.
  - intros values. by rewrite Hrun, query_among by done.
  - intros values Hnone. rewrite Hrun, query_among by done.
    unfold answer. by rewrite filter_none by done.
Qed.

Lemma missing_from_Forall table hs :
  missing_from table hs = [] → Forall (key_in_columns (columns table)) hs.
Proof.
  intros Hnil. apply Forall_forall. intros k Hk.
  destruct (decide (key_in_columns (columns table) k)) as [|Hn]; [done|].
  by destruct (filter_nil_not_elem_of _ _ k Hnil Hn).
Qed.

Lemma missing_from_names table (cols : list string) :
  missing_from table (CStr <$> cols)
  = CStr <$> filter (λ c, c ∉ columns table) cols.
Proof.
  unfold missing_from. induction cols as [|c cols IH]; [done|].
  rewrite fmap_cons, !filter_cons, IH. simpl.
  destruct (decide (c ∈ columns table)) as [Hc|Hc].
  - rewrite decide_False by (intros Hn; by apply Hn).
    by rewrite decide_False by (intros Hn; by apply Hn).
  - by rewrite !decide_True by done.
Qed.

(** A query with a season of a documented kind either answers or reports the
    selected labels that are no columns of its table. *)
Lemma games_body_cases results (h : heap) self ds cols table season compact :
  h !! self = Some (OInstance ds) →
  h !! headers_of ds compact = Some (OList (CStr <$> cols)) →
  h !! results ds = Some (ODataFrame table) →
  "Season" ∈ columns table →
  season_like season →
  (cols ⊆ columns table →
   ∃ out, games_body results self season compact h
          = (inr (length h), h ++ [ODataFrame out]))
  ∧ (cols ⊈ columns table →
     filter (λ c, c ∉ columns table) cols ≠ []
     ∧ games_body results self season compact h
       = (inl (KeyError (CStr <$> filter (λ c, c ∉ columns table) cols)), h)).
Proof.
  intros Hself Hhs Htab Hin Hlike. split.
  - intros Hsub%headers_in_columns.
    destruct (games_body_answers results h self ds _ table compact
                Hself Hhs Htab Hin Hsub) as (Hnone & Hint & Hiter & _).
    destruct season as [|z| | |values]; try done; eauto.
  - intros Hnsub.
    assert (¬ Forall (key_in_columns (columns table)) (CStr <$> cols))
      as Hnot by (intros Hall; by apply Hnsub, headers_in_columns_inv).
    destruct (getitem_list_missing table _ Hnot) as [Hne _].
    rewrite missing_from_names in Hne. split.
    { intros Hnil. apply Hne. by rewrite Hnil. }
    rewrite (games_body_run _ _ _ _ _ _ season _ Hself Hhs Htab).
    rewrite query_missing, missing_from_names; [done..|].
    destruct season; try done; eauto.
Qed.

Lemma games_body_scalar results (h : heap) self ds hs table season compact :
  h !! self = Some (OInstance ds) →
  h !! headers_of ds compact = Some (OList hs) →
  h !! results ds = Some (ODataFrame table) →
  "Season" ∈ columns table →
  ¬ season_like season →
  games_body results self season compact h = (inl TypeError, h).
Proof.
  intros Hself Hhs Htab Hin Hlike.
  rewrite (games_body_run _ _ _ _ _ _ season _ Hself Hhs Htab).
  rewrite query_scalar; [done..|].
  destruct season; simpl in Hlike; try tauto; eauto.
Qed.

End Built.

(** ** Dictionaries built from two columns *)

Module Dict.
Import Pandas Py DatasetPy Spec PandasFacts Run.

Lemma dict_update_snoc d i kvs k v :
  dict_update d i (kvs ++ [(k, v)])
  = <[key_of (i + length kvs) k := v]> (dict_update d i kvs).
Proof.
  revert d i. induction kvs as [|[k' v'] kvs IH]; intros d i; simpl.
  - by rewrite Nat.add_0_r.
  - rewrite IH. do 2 f_equal. lia.
Qed.

Lemma key_of_arg i c K : arg_key c = Some K → key_of i c = K.
Proof. destruct c; simpl; congruence. Qed.

Lemma arg_key_Some c : c ≠ CNull → arg_key c = Some (key_of 0 c).
Proof. by destruct c. Qed.

Lemma key_of_arg_inj i c c' K : arg_key c = Some K → key_of i c' = K → c' = c.
Proof. destruct c, c'; simpl; congruence. Qed.

(** A key that no pair carries is left as it was. *)
Lemma dict_update_absent d i kvs k K :
  arg_key k = Some K → k ∉ kvs.*1 →
  dict_update d i kvs !! K = d !! K.
Proof.
  intros HK. induction kvs as [|[k' v'] kvs IH] using rev_ind; [done|].
  rewrite fmap_app, not_elem_of_app. simpl. intros [Hkvs Hk'].
  rewrite dict_update_snoc, lookup_insert_ne; [by apply IH|].
  intros Heq. apply Hk', list_elem_of_singleton. symmetry.
  by eapply key_of_arg_inj.
Qed.

(** The last pair with a given key decides its value. *)
Lemma dict_update_last d i pre k v post K :
  arg_key k = Some K → k ∉ post.*1 →
  dict_update d i (pre ++ (k, v) :: post) !! K = Some v.
Proof.
  intros HK. induction post as [|[k' v'] post IH] using rev_ind.
  - intros _. rewrite dict_update_snoc, (key_of_arg _ _ _ HK).
    apply lookup_insert_eq.
  - rewrite fmap_app, not_elem_of_app. simpl. intros [Hpost Hk'].
    rewrite app_comm_cons, app_assoc, dict_update_snoc.
    rewrite lookup_insert_ne; [by apply IH|].
    intros Heq. apply Hk', list_elem_of_singleton. symmetry.
    by eapply key_of_arg_inj.
Qed.


Lemma zip_fst_same_length {A B} (ks : list A) (vs : list B) :
  length ks = length vs → (zip ks vs).*1 = ks.
Proof. intros H. apply fst_zip. lia. Qed.

(** [dict(zip(ks, vs))] read at the key of the cell [k]: the value paired
    with the last occurrence of [k]. *)
Lemma dict_zip_last ks vs i k v K :
  length ks = length vs →
  ks !! i = Some k → vs !! i = Some v →
  arg_key k = Some K →
  (∀ j, (i < j)%nat → ks !! j ≠ Some k) →
  dict_zip ks vs !! K = Some v.
Proof.
  intros Hlen Hk Hv HK Hlast. unfold dict_zip.
  assert (zip ks vs !! i = Some (k, v)) as Hi.
  { apply lookup_zip_with_Some. eauto. }
  rewrite <-(take_drop_middle _ _ _ Hi).
  apply dict_update_last; [done|].
  intros (j & Hj)%list_elem_of_lookup_1.
  rewrite list_lookup_fmap, lookup_drop in Hj.
  rewrite <-list_lookup_fmap, zip_fst_same_length in Hj by done.
  apply (Hlast (S i + j)%nat); [lia | done].
Qed.

Lemma dict_zip_absent ks vs k K :
  length ks = length vs →
  arg_key k = Some K → k ∉ ks → dict_zip ks vs !! K = None.
Proof.
  intros Hlen HK Hk. unfold dict_zip.
  rewrite (dict_update_absent _ _ _ k) by (by rewrite ?zip_fst_same_length).
  apply lookup_empty.
Qed.




(** Every value has a last occurrence. *)
Lemma last_occurrence {A} `{!EqDecision A} (l : list A) (x : A) :
  x ∈ l → ∃ i, l !! i = Some x ∧ ∀ j, (i < j)%nat → l !! j ≠ Some x.
Proof.
  intros (l1 & l2 & -> & Hx)%list_elem_of_split_r.
  exists (length l1). split; [by apply list_lookup_middle|].
  intros j Hj Hl. apply Hx.
  rewrite lookup_app_r in Hl by lia.
  destruct (j - length l1)%nat as [|n] eqn:E; [lia|].
  simpl in Hl. by eapply list_elem_of_lookup_2.
Qed.

Lemma dict_of_columns_inv df kc vc d :
  dict_of_columns df kc vc = inr d →
  ∃ ks vs, getattr_col df kc = inr ks ∧ getattr_col df vc = inr vs
           ∧ length ks = length vs ∧ d = dict_zip ks vs.
Proof.
  unfold dict_of_columns.
  destruct (getattr_col df kc) as [|ks] eqn:Hk; [done|].
  destruct (getattr_col df vc) as [|vs] eqn:Hv; [done|].
  intros [= <-]. exists ks, vs. do 2 (split; [done|]). split; [|done].
  unfold getattr_col in Hk, Hv. repeat case_decide; simplify_eq.
  by rewrite !length_fmap.
Qed.

End Dict.

(** ** Distinct values in order of first appearance *)

Module Unique.
Import Pandas.

Lemma unique_snoc s x :
  unique (s ++ [x]) = if decide (x ∈ unique s) then unique s
                      else unique s ++ [x].
Proof. unfold unique. by rewrite foldl_snoc. Qed.

Lemma unique_elem_of s x : x ∈ unique s ↔ x ∈ s.
Proof.
  induction s as [|y s IH] using rev_ind; [done|].
  rewrite unique_snoc, elem_of_app, list_elem_of_singleton.
  case_decide as Hy.
  - rewrite IH. split; [by left|]. intros [?| ->]; [done|]. by apply IH.
  - by rewrite elem_of_app, list_elem_of_singleton, IH.
Qed.

Lemma unique_NoDup s : NoDup (unique s).
Proof.
  induction s as [|y s IH] using rev_ind; [by constructor|].
  rewrite unique_snoc. case_decide as Hy; [done|].
  apply NoDup_app. split; [done|]. split; [|apply NoDup_singleton].
  intros x Hx ->%list_elem_of_singleton. done.
Qed.

(** The distinct values of a prefix of the column come first. *)
Lemma unique_prefix pre post : unique pre `prefix_of` unique (pre ++ post).
Proof.
  induction post as [|y post IH] using rev_ind.
  - by rewrite app_nil_r.
  - rewrite app_assoc, unique_snoc. case_decide; [done|].
    by apply prefix_app_r.
Qed.

(** The result is in order of first appearance: a value listed before
    another one occurs in the column before every occurrence of the other. *)
Lemma unique_first_appearance s i j x y :
  unique s !! i = Some x → unique s !! j = Some y → (i < j)%nat →
  ∃ a, s !! a = Some x ∧ ∀ b, s !! b = Some y → (a < b)%nat.
Proof.
  revert i j x y. induction s as [|c s IH] using rev_ind; [done|].
  intros i j x y. rewrite unique_snoc. case_decide as Hc.
  - intros Hi Hj Hij. destruct (IH i j x y Hi Hj Hij) as (a & Ha & Hb).
    exists a. split; [by apply lookup_app_l_Some|].
    intros b [Hl|[Hlen _]]%lookup_app_Some; [by apply Hb|].
    apply lookup_lt_Some in Ha. lia.
  - intros Hi Hj Hij.
    apply lookup_app_Some in Hj as [Hj|[Hlen Hj]].
    + assert (unique s !! i = Some x) as Hi'.
      { apply lookup_app_Some in Hi as [Hi|[Hlen _]]; [done|].
        apply lookup_lt_Some in Hj. lia. }
      destruct (IH i j x y Hi' Hj Hij) as (a & Ha & Hb).
      exists a. split; [by apply lookup_app_l_Some|].
      intros b [Hl|[Hlen' Hl]]%lookup_app_Some; [by apply Hb|].
      apply list_lookup_singleton_Some in Hl as [_ ->].
      exfalso. apply Hc. by eapply list_elem_of_lookup_2.
    + apply list_lookup_singleton_Some in Hj as [Hj ->].
      assert (unique s !! i = Some x) as Hi'.
      { apply lookup_app_Some in Hi as [Hi|[Hlen' _]]; [done|]. lia. }
      assert (x ∈ s) as (a & Ha)%list_elem_of_lookup_1.
      { apply unique_elem_of. by eapply list_elem_of_lookup_2. }
      exists a. split; [by apply lookup_app_l_Some|].
      intros b [Hl|[Hlen' _]]%lookup_app_Some.
      * exfalso. apply Hc, unique_elem_of. by eapply list_elem_of_lookup_2.
      * apply lookup_lt_Some in Ha. lia.
Qed.

End Unique.

(** ** The properties of the specification *)

Import Pandas Py DatasetPy Spec.

(** Names the facts of a constructed instance after the fields of
    [built]. *)
Ltac open_built B :=
  destruct B as [built_holds built_self built_headers built_regular
                 built_tourney built_teams built_seasons built_seeds
                 built_regular_season built_tourney_season].



(** C1 as first stated fails.  In the third sample directory the detailed
    regular-season file records 2^53 + 1 in a column that the compact file
    lacks.  The compact file has a row of 1985, which gets a missing value in
    that column; the column is therefore float64 in the merged table, and the
    merged table holds 2^53 where the statement promises the row of the
    file. *)
Lemma C1_rounding_counterexample :
  __init__ Sample.fs3 "v/" [] = (inr 8%nat, Sample.heap3)
  ∧ Sample.heap3 !! 8%nat = Some (OInstance (instance_at 0 "v/"))
  ∧ Sample.heap3 !! regular_results (instance_at 0 "v/")
    = Some (ODataFrame (Frame Sample.extended_header
        [ Row 0 (Sample.game 1985 20 1228 81 1328 64 "N" 0 ++ [CNull; CNull]);
          Row 0 (Sample.game 2003 10 1104 68 1328 62 "N" 0
                   ++ [CInt 9007199254740992; CInt 22]) ]))
  ∧ spec_merged (frame_of_csv Sample.regular_compact3)
      (frame_of_csv Sample.regular_detailed3)
    = Frame Sample.extended_header
        [ Row 0 (Sample.game 1985 20 1228 81 1328 64 "N" 0 ++ [CNull; CNull]);
          Row 0 (Sample.game 2003 10 1104 68 1328 62 "N" 0
                   ++ [CInt 9007199254740993; CInt 22]) ].
Proof. vm_compute. repeat split; reflexivity. Qed.




(** C3.  The table a game query returns has exactly the compact column set
    when [compact] is true and exactly the detailed column set when it is
    false, in that set's own order; both sets were fixed at construction as
    the headers of the compact and of the detailed regular-season file.  The
    regular query returns for every season of a documented kind. *)
Theorem C3_projection_columns fs datadir (h0 : heap) self h :
  __init__ fs datadir h0 = (inr self, h) →
  ∃ p,
    holds fs datadir p
    ∧ (∀ season compact l h',
         getRegularGames self season compact h = (inr l, h')
         ∨ getTourneyGames self season compact h = (inr l, h') →
         ∃ out,
           h' !! l = Some (ODataFrame out)
           ∧ columns out
             = header (if compact then regular_comp p else regular_det p))
    ∧ (∀ season compact, season_like season →
         ∃ out,
           getRegularGames self season compact h
           = (inr (length h), h ++ [ODataFrame out])).
Proof.
  intros (p & ds & B)%Built.init_built.
  open_built B.
  exists p. split; [done|]. split.
  - intros season compact l h' Hcall.
    assert (∃ table out, Shape.query table
              (CStr <$> header (header_file p compact)) season = inr out
              ∧ l = length h ∧ h' = h ++ [ODataFrame out])
      as (table & out & Hq & -> & ->).
    { destruct Hcall as [Hcall|Hcall].
      - rewrite Games.getRegularGames_body in Hcall.
        eapply Games.games_body_inr in Hcall as (out & ?); by eauto.
      - rewrite Games.getTourneyGames_body in Hcall.
        eapply Games.games_body_inr in Hcall as (out & ?); by eauto. }
    exists out. split.
    + by rewrite Run.lookup_new_0.
    + apply Games.query_columns in Hq as ->.
      rewrite Games.key_name_columns. by destruct compact.
  - intros season compact Hlike.
    pose proof (Built.games_body_answers regular_results h self ds _ _ compact
                  built_self (built_headers compact) built_regular
                  (Built.season_in_merged (frame_of_csv (regular_comp p))
                     (frame_of_csv (regular_det p)) built_regular_season)
                  (Built.regular_headers_present p compact))
      as (Hnone & Hint & Hiter & _).
    rewrite Games.getRegularGames_body.
    destruct season as [|z| | |values]; try done; eauto.
Qed.

Lemma C3_projection_columns_witness :
  ∃ p,
    holds Sample.fs "d/" p
    ∧ (∀ season compact l h',
         getRegularGames 8%nat season compact Sample.heap1 = (inr l, h')
         ∨ getTourneyGames 8%nat season compact Sample.heap1 = (inr l, h') →
         ∃ out,
           h' !! l = Some (ODataFrame out)
           ∧ columns out
             = header (if compact then regular_comp p else regular_det p))
    ∧ (∀ season compact, season_like season →
         ∃ out,
           getRegularGames 8%nat season compact Sample.heap1
           = (inr (length Sample.heap1), Sample.heap1 ++ [ODataFrame out])).
Proof.
  apply (C3_projection_columns Sample.fs "d/" [] 8%nat Sample.heap1).
  vm_compute. reflexivity.
Defined.

(** C9.  The two header lists that both game queries select from are the
    headers of the two regular-season files.  Hence [getTourneyGames], called
    with a season of a documented kind, succeeds when every selected
    regular-season column name is a column of the merged tournament table,
    and otherwise raises [KeyError] naming exactly the selected names that
    the tournament table lacks. *)
Theorem C9_tourney_uses_regular_headers fs datadir (h0 : heap) self h :
  __init__ fs datadir h0 = (inr self, h) →
  ∃ p ds tour,
    holds fs datadir p
    ∧ h !! self = Some (OInstance ds)
    ∧ h !! compact_headers ds
      = Some (OList (CStr <$> header (regular_comp p)))
    ∧ h !! detailed_headers ds
      = Some (OList (CStr <$> header (regular_det p)))
    ∧ h !! tourney_results ds = Some (ODataFrame tour)
    ∧ (∀ c, c ∈ columns tour
            ↔ c ∈ header (tourney_comp p) ∨ c ∈ header (tourney_det p))
    ∧ ∀ season compact, season_like season →
        (header (header_file p compact) ⊆ columns tour →
         ∃ out, getTourneyGames self season compact h
                = (inr (length h), h ++ [ODataFrame out]))
        ∧ (header (header_file p compact) ⊈ columns tour →
           filter (λ c, c ∉ columns tour)
             (header (header_file p compact)) ≠ []
           ∧ getTourneyGames self season compact h
             = (inl (KeyError
                       (CStr <$> filter (λ c, c ∉ columns tour)
                                   (header (header_file p compact)))),
                h)).
Proof.
  intros (p & ds & B)%Built.init_built.
  open_built B.
  exists p, ds. eexists. split; [done|]. split; [done|].
  split; [apply (built_headers true)|].
  split; [apply (built_headers false)|].
  split; [done|].
  split; [intros c; apply Merge.elem_of_columns_merged|].
  intros season compact Hlike. rewrite Games.getTourneyGames_body.
  eapply Built.games_body_cases; try done.
  by apply Built.season_in_merged.
Qed.

Lemma C9_tourney_uses_regular_headers_witness :
  ∃ p ds tour,
    holds Sample.fs "d/" p
    ∧ Sample.heap1 !! 8%nat = Some (OInstance ds)
    ∧ Sample.heap1 !! compact_headers ds
      = Some (OList (CStr <$> header (regular_comp p)))
    ∧ Sample.heap1 !! detailed_headers ds
      = Some (OList (CStr <$> header (regular_det p)))
    ∧ Sample.heap1 !! tourney_results ds = Some (ODataFrame tour)
    ∧ (∀ c, c ∈ columns tour
            ↔ c ∈ header (tourney_comp p) ∨ c ∈ header (tourney_det p))
    ∧ ∀ season compact, season_like season →
        (header (header_file p compact) ⊆ columns tour →
         ∃ out, getTourneyGames 8%nat season compact Sample.heap1
                = (inr (length Sample.heap1),
                   Sample.heap1 ++ [ODataFrame out]))
        ∧ (header (header_file p compact) ⊈ columns tour →
           filter (λ c, c ∉ columns tour)
             (header (header_file p compact)) ≠ []
           ∧ getTourneyGames 8%nat season compact Sample.heap1
             = (inl (KeyError
                       (CStr <$> filter (λ c, c ∉ columns tour)
                                   (header (header_file p compact)))),
                Sample.heap1)).
Proof.
  apply (C9_tourney_uses_regular_headers Sample.fs "d/" [] 8%nat Sample.heap1).
  vm_compute. reflexivity.
Defined.

(** C10.  In both game queries a season is taken as one season only when
    it is an [int]: the call then runs as with the one-element list.  A
    [bool] or a [float] is not an [int]; it reaches [list(season)], which
    raises [TypeError], so it is not filtered as a season.  An iterable of
    integers is accepted: the regular query answers, and the tournament query
    does not raise [TypeError]. *)
Theorem C10_season_type_dispatch fs datadir (h0 : heap) self h :
  __init__ fs datadir h0 = (inr self, h) →
  ∀ compact,
    (∀ z, getRegularGames self (PyInt z) compact h
          = getRegularGames self (PyIter [CInt z]) compact h)
    ∧ (∀ z, getTourneyGames self (PyInt z) compact h
            = getTourneyGames self (PyIter [CInt z]) compact h)
    ∧ (∀ b, getRegularGames self (PyBool b) compact h = (inl TypeError, h))
    ∧ (∀ b, getTourneyGames self (PyBool b) compact h = (inl TypeError, h))
    ∧ (∀ x, getRegularGames self (PyFloat x) compact h = (inl TypeError, h))
    ∧ (∀ x, getTourneyGames self (PyFloat x) compact h = (inl TypeError, h))
    ∧ (∀ b, getRegularGames self (PyBool b) compact h
            ≠ getRegularGames self (PyInt (Z.b2z b)) compact h)
    ∧ (∀ zs, ∃ out, getRegularGames self (PyIter (CInt <$> zs)) compact h
                    = (inr (length h), h ++ [ODataFrame out]))
    ∧ (∀ zs, (getTourneyGames self (PyIter (CInt <$> zs)) compact h).1
             ≠ inl TypeError).
Proof.
  intros (p & ds & B)%Built.init_built compact.
  open_built B.
  pose proof (Built.season_in_merged (frame_of_csv (regular_comp p))
                (frame_of_csv (regular_det p)) built_regular_season) as Hreg.
  pose proof (Built.season_in_merged (frame_of_csv (tourney_comp p))
                (frame_of_csv (tourney_det p)) built_tourney_season) as Htour.
  assert (∀ season, ¬ season_like season →
            getRegularGames self season compact h = (inl TypeError, h))
    as Hrs.
  { intros season Hs. rewrite Games.getRegularGames_body.
    by eapply Built.games_body_scalar. }
  assert (∀ season, ¬ season_like season →
            getTourneyGames self season compact h = (inl TypeError, h))
    as Hts.
  { intros season Hs. rewrite Games.getTourneyGames_body.
    by eapply Built.games_body_scalar. }
  assert (∀ season, season_like season →
            ∃ out, getRegularGames self season compact h
                   = (inr (length h), h ++ [ODataFrame out])) as Hok.
  { intros season Hs. rewrite Games.getRegularGames_body.
    eapply Built.games_body_cases; try done.
    intros c Hc. apply Merge.elem_of_columns_merged.
    destruct compact; [by left | by right]. }
  split; [done|]. split; [done|].
  split; [intros b; apply Hrs; by intros []|].
  split; [intros b; apply Hts; by intros []|].
  split; [intros x; apply Hrs; by intros []|].
  split; [intros x; apply Hts; by intros []|].
  split.
  { intros b. rewrite Hrs by (by intros []).
    destruct (Hok (PyInt (Z.b2z b)) I) as [out ->]. done. }
  split; [intros zs; by apply Hok|].
  intros zs. rewrite Games.getTourneyGames_body.
  destruct (Built.games_body_cases tourney_results h self ds
              (header (header_file p compact)) _
              (PyIter (CInt <$> zs)) compact
              built_self (built_headers compact) built_tourney Htour I)
    as [Hyes Hno].
  destruct (decide (header (header_file p compact)
                    ⊆ columns (merged (frame_of_csv (tourney_comp p))
                                 (frame_of_csv (tourney_det p)))))
    as [Hsub|Hsub].
  - by destruct (Hyes Hsub) as [out ->].
  - by destruct (Hno Hsub) as [_ ->].
Qed.

Lemma C10_season_type_dispatch_witness :
  (∀ z, getRegularGames 8%nat (PyInt z) true Sample.heap1
        = getRegularGames 8%nat (PyIter [CInt z]) true Sample.heap1)
  ∧ (∀ z, getTourneyGames 8%nat (PyInt z) true Sample.heap1
          = getTourneyGames 8%nat (PyIter [CInt z]) true Sample.heap1)
  ∧ (∀ b, getRegularGames 8%nat (PyBool b) true Sample.heap1
          = (inl TypeError, Sample.heap1))
  ∧ (∀ b, getTourneyGames 8%nat (PyBool b) true Sample.heap1
          = (inl TypeError, Sample.heap1))
  ∧ (∀ x, getRegularGames 8%nat (PyFloat x) true Sample.heap1
          = (inl TypeError, Sample.heap1))
  ∧ (∀ x, getTourneyGames 8%nat (PyFloat x) true Sample.heap1
          = (inl TypeError, Sample.heap1))
  ∧ (∀ b, getRegularGames 8%nat (PyBool b) true Sample.heap1
          ≠ getRegularGames 8%nat (PyInt (Z.b2z b)) true Sample.heap1)
  ∧ (∀ zs, ∃ out,
       getRegularGames 8%nat (PyIter (CInt <$> zs)) true Sample.heap1
       = (inr (length Sample.heap1), Sample.heap1 ++ [ODataFrame out]))
  ∧ (∀ zs,
       (getTourneyGames 8%nat (PyIter (CInt <$> zs)) true Sample.heap1).1
       ≠ inl TypeError).
Proof.
  apply (C10_season_type_dispatch Sample.fs "d/" [] 8%nat Sample.heap1).
  vm_compute. reflexivity.
Defined.

Lemma getTeam_run (h : heap) self ds d id :
  h !! self = Some (OInstance ds) →
  h !! teams ds = Some (ODict d) →
  getTeam self id h = (dict_getitem d id, h).
Proof.
  intros Hself Hd. unfold getTeam.
  rewrite (Run.bind_inr _ _ _ _ _ (Run.get_instance_run _ _ _ Hself)).
  rewrite (Run.bind_inr _ _ _ _ _ (Run.get_dict_run _ _ _ Hd)).
  by destruct (dict_getitem d id).
Qed.

(** C4.  For an id present in Teams.csv, [getTeam(id)] returns the name
    paired with it in the file (the name of the last row with that id, should
    the file repeat one); for an id absent from the file it raises
    [KeyError].  In both cases the heap is returned as it was.  An id is a
    number, a string, or [numpy.nan], which a column of string ids holds for
    each blank field.  The NaN that a numeric id column holds for a blank
    field is no id: it is an object that no caller has. *)
Theorem C4_getTeam fs datadir (h0 : heap) self h :
  __init__ fs datadir h0 = (inr self, h) →
  ∃ p ids names,
    holds fs datadir p
    ∧ getattr_col (frame_of_csv (teams_file p)) "Team_Id" = inr ids
    ∧ getattr_col (frame_of_csv (teams_file p)) "Team_Name" = inr names
    ∧ (∀ i id name,
         ids !! i = Some id → names !! i = Some name → id ≠ CNull →
         (∀ j, (i < j)%nat → ids !! j ≠ Some id) →
         getTeam self id h = (inr name, h))
    ∧ (∀ id, id ∈ ids → id ≠ CNull →
         ∃ name, (id, name) ∈ zip ids names
                 ∧ getTeam self id h = (inr name, h))
    ∧ (∀ id, id ∉ ids → getTeam self id h = (inl (KeyError [id]), h)).
Proof.
  intros (p & ds & B)%Built.init_built.
  open_built B.
  destruct built_teams as (d & Hd & Hteams).
  apply Dict.dict_of_columns_inv in Hd
    as (ids & names & Hids & Hnames & Hlen & ->).
  exists p, ids, names. do 3 (split; [done|]).
  assert (∀ i id name,
            ids !! i = Some id → names !! i = Some name → id ≠ CNull →
            (∀ j, (i < j)%nat → ids !! j ≠ Some id) →
            getTeam self id h = (inr name, h)) as Hlast.
  { intros i id name Hi Hn Hnull Hl.
    rewrite (getTeam_run _ _ _ _ _ built_self Hteams). unfold dict_getitem.
    destruct (arg_key id) as [K|] eqn:HK; [|by destruct id].
    simpl. by rewrite (Dict.dict_zip_last ids names i id name K). }
  split; [done|]. split.
  - intros id Hin Hnull.
    destruct (Dict.last_occurrence ids id Hin) as (i & Hi & Hl).
    destruct (names !! i) as [name|] eqn:Hn.
    + exists name. split; [|by eapply Hlast].
      apply list_elem_of_lookup. exists i. apply lookup_zip_with_Some. eauto.
    + apply lookup_ge_None in Hn. apply lookup_lt_Some in Hi. lia.
  - intros id Hid. rewrite (getTeam_run _ _ _ _ _ built_self Hteams).
    unfold dict_getitem.
    destruct (arg_key id) as [K|] eqn:HK; [|done]. simpl.
    by rewrite (Dict.dict_zip_absent ids names id K).
Qed.

Lemma C4_getTeam_witness :
  ∃ p ids names,
    holds Sample.fs5 "n/" p
    ∧ getattr_col (frame_of_csv (teams_file p)) "Team_Id" = inr ids
    ∧ getattr_col (frame_of_csv (teams_file p)) "Team_Name" = inr names
    ∧ (∀ i id name,
         ids !! i = Some id → names !! i = Some name → id ≠ CNull →
         (∀ j, (i < j)%nat → ids !! j ≠ Some id) →
         getTeam 8%nat id Sample.heap5 = (inr name, Sample.heap5))
    ∧ (∀ id, id ∈ ids → id ≠ CNull →
         ∃ name, (id, name) ∈ zip ids names
                 ∧ getTeam 8%nat id Sample.heap5 = (inr name, Sample.heap5))
    ∧ (∀ id, id ∉ ids →
         getTeam 8%nat id Sample.heap5 = (inl (KeyError [id]), Sample.heap5)).
Proof.
  apply (C4_getTeam Sample.fs5 "n/" [] 8%nat Sample.heap5).
  vm_compute. reflexivity.
Defined.





Lemma getYears_run (h : heap) self ds t :
  h !! self = Some (OInstance ds) →
  h !! seasons ds = Some (ODataFrame (frame_of_csv t)) →
  "Season" ∈ header t →
  getYears self h
  = (inr (length h),
     h ++ [OList (unique ((λ r, cell_at (header t) r "Season")
                            <$> rows (frame_of_csv t)))]).
Proof.
  intros Hself Hseasons Hs. unfold getYears.
  rewrite (Run.bind_inr _ _ _ _ _ (Run.get_instance_run _ _ _ Hself)).
  rewrite (Run.bind_inr _ _ _ _ _ (Run.get_frame_run _ _ _ Hseasons)).
  unfold getattr_col. by rewrite decide_True by done.
Qed.

(** C6.  [getYears()] returns exactly the distinct values of the Season
    column of the season table, none twice, in the order of the rows of the
    file and unsorted; each call returns a new list. *)
Theorem C6_getYears fs datadir (h0 : heap) self h p :
  __init__ fs datadir h0 = (inr self, h) →
  holds fs datadir p →
  "Season" ∈ header (seasons_file p) →
  ∃ ys,
    getYears self h = (inr (length h), h ++ [OList ys])
    ∧ distinct_in_order
        ((λ r, cell_at (header (seasons_file p)) r "Season")
           <$> rows (frame_of_csv (seasons_file p)))
        ys
    ∧ h !! length h = None
    ∧ getYears self (h ++ [OList ys])
      = (inr (S (length h)), (h ++ [OList ys]) ++ [OList ys]).
Proof.
  intros Hinit Hp Hs.
  destruct (Built.init_built_for _ _ _ _ _ _ Hinit Hp) as [ds B].
  open_built B.
  eexists. split; [by apply (getYears_run h self ds (seasons_file p))|].
  split; [|split].
  - split; [apply Unique.unique_NoDup|].
    split; [intros y; apply Unique.unique_elem_of|].
    apply Unique.unique_first_appearance.
  - by apply lookup_ge_None.
  - rewrite (getYears_run _ self ds (seasons_file p));
      [|by apply lookup_app_l_Some..|done].
    rewrite length_app. simpl. do 2 f_equal. lia.
Qed.

Lemma C6_getYears_witness :
  ∃ ys,
    getYears 8%nat Sample.heap1
    = (inr (length Sample.heap1), Sample.heap1 ++ [OList ys])
    ∧ distinct_in_order
        ((λ r, cell_at (header Sample.seasons_csv) r "Season")
           <$> rows (frame_of_csv Sample.seasons_csv))
        ys
    ∧ Sample.heap1 !! length Sample.heap1 = None
    ∧ getYears 8%nat (Sample.heap1 ++ [OList ys])
      = (inr (S (length Sample.heap1)),
         (Sample.heap1 ++ [OList ys]) ++ [OList ys]).
Proof.
  apply (C6_getYears Sample.fs "d/" [] 8%nat Sample.heap1 Sample.parsed_files).
  - vm_compute. reflexivity.
  - vm_compute. repeat split; reflexivity.
  - apply (bool_decide_unpack _). vm_compute. exact I.
Defined.

Lemma keeps_refl (h : heap) : keeps h h.
Proof. by intros l o. Qed.

Lemma keeps_alloc (h : heap) o : keeps h (h ++ [o]).
Proof. intros l o' Hl. by apply lookup_app_l_Some. Qed.

Ltac run_all :=
  unfold bind, get_instance, get_list, get_frame, get_dict, lift, ret, raise,
    alloc;
  repeat (case_match; simplify_eq; try done); simpl.

Lemma games_body_keeps results self season compact (h : heap) :
  keeps h (Shape.games_body results self season compact h).2.
Proof.
  unfold Shape.games_body. run_all;
    first [apply keeps_refl | apply keeps_alloc].
Qed.

Lemma games_body_fresh results self season compact (h : heap) l h' :
  Shape.games_body results self season compact h = (inr l, h') →
  l = length h ∧ ∃ out, h' = h ++ [ODataFrame out].
Proof.
  unfold Shape.games_body. run_all; intros H; simplify_eq; eauto.
Qed.

(** C8.  No query changes an object of the heap: the instance, its tables
    and its other attributes are after the call what they were before,
    whether the call returns or raises.  [getTeam] allocates nothing.  A table
    that [getRegularGames] or [getTourneyGames] returns is a new object, at a
    location that held nothing before the call, so it is none of the objects
    the instance refers to. *)
Theorem C8_queries_keep_state (h : heap) (self : loc) :
  (∀ id, (getTeam self id h).2 = h)
  ∧ keeps h (getYears self h).2
  ∧ (∀ season, keeps h (getSeeds self season h).2)
  ∧ (∀ season compact, keeps h (getRegularGames self season compact h).2)
  ∧ (∀ season compact, keeps h (getTourneyGames self season compact h).2)
  ∧ (∀ season compact l h',
       getRegularGames self season compact h = (inr l, h')
       ∨ getTourneyGames self season compact h = (inr l, h') →
       h !! l = None
       ∧ ∃ out, h' = h ++ [ODataFrame out]
                ∧ h' !! l = Some (ODataFrame out)).
Proof.
  split.
  { intros id. unfold getTeam. by run_all. }
  split.
  { unfold getYears. run_all; first [apply keeps_refl | apply keeps_alloc]. }
  split.
  { intros season. unfold getSeeds.
    run_all; first [apply keeps_refl | apply keeps_alloc]. }
  split.
  { intros season compact. rewrite Games.getRegularGames_body.
    apply games_body_keeps. }
  split.
  { intros season compact. rewrite Games.getTourneyGames_body.
    apply games_body_keeps. }
  intros season compact l h' Hcall.
  assert (l = length h ∧ ∃ out, h' = h ++ [ODataFrame out])
    as (-> & out & ->).
  { destruct Hcall as [Hcall|Hcall].
    - rewrite Games.getRegularGames_body in Hcall.
      by eapply games_body_fresh.
    - rewrite Games.getTourneyGames_body in Hcall.
      by eapply games_body_fresh. }
  split; [by apply lookup_ge_None|].
  exists out. split; [done|]. by rewrite Run.lookup_new_0.
Qed.






(** C7 as first stated fails: nothing makes the basic columns a subset of
    the extended ones.  In the fourth sample directory the compact
    regular-season file has a column, the attendance, that the detailed file
    lacks.  Construction succeeds all the same, and the compact projection of
    an extended-era row carries a missing value in that basic column, for
    which the row has no value in the extended schema. *)
Lemma C7_subset_counterexample :
  __init__ Sample.fs4 "x/" [] = (inr 8%nat, Sample.heap4)
  ∧ header Sample.regular_compact2 = Sample.basic_header ++ ["Crowd"]
  ∧ header Sample.regular_detailed = Sample.basic_header ++ ["Wfgm"; "Lfgm"]
  ∧ Sample.returned (getRegularGames 8%nat PyNone true Sample.heap4)
    = inr (ODataFrame (Frame (Sample.basic_header ++ ["Crowd"])
        [ Row 0 (Sample.game 1985 20 1228 81 1328 64 "N" 0 ++ [CInt 5200]);
          Row 0 (Sample.game 2003 10 1104 68 1328 62 "N" 0 ++ [CNull]);
          Row 1 (Sample.game 2004 11 1272 70 1393 63 "N" 1 ++ [CNull]) ]))
  ∧ Sample.returned (getRegularGames 8%nat PyNone false Sample.heap4)
    = inr (ODataFrame (Frame (Sample.basic_header ++ ["Wfgm"; "Lfgm"])
        [ Row 0 (Sample.game 1985 20 1228 81 1328 64 "N" 0 ++ [CNull; CNull]);
          Row 0 (Sample.game 2003 10 1104 68 1328 62 "N" 0
                   ++ [CInt 27; CInt 22]);
          Row 1 (Sample.game 2004 11 1272 70 1393 63 "N" 1
                   ++ [CInt 26; CInt 24]) ])).
Proof. vm_compute. repeat split; reflexivity. Qed.

(** ** The model run on the two sample directories *)

Module Examples.
Import Sample.

Example construct : __init__ fs "d/" [] = (inr 8%nat, heap1).
Proof. vm_compute. reflexivity. Qed.

Example construct_missing_file :
  (__init__ fs "nowhere/" []).1
  = inl (FileNotFoundError "nowhere/RegularSeasonCompactResults.csv").
Proof. vm_compute. reflexivity. Qed.

Example merged_regular :
  heap1 !! 0%nat
  = Some (ODataFrame (Frame extended_header
      [ Row 0 (game 1985 20 1228 81 1328 64 "N" 0 ++ [CNull; CNull]);
        Row 1 (game 2002 25 1106 77 1354 70 "H" 0 ++ [CNull; CNull]);
        Row 0 (game 2003 10 1104 68 1328 62 "N" 0 ++ [CInt 27; CInt 22]);
        Row 1 (game 2004 11 1272 70 1393 63 "N" 1 ++ [CInt 26; CInt 24]) ])).
Proof. vm_compute. reflexivity. Qed.

Example regular_2003_compact :
  returned (getRegularGames 8%nat (PyInt 2003) true heap1)
  = inr (ODataFrame (Frame basic_header
           [Row 0 (game 2003 10 1104 68 1328 62 "N" 0)])).
Proof. vm_compute. reflexivity. Qed.

Example regular_two_seasons_detailed :
  returned (getRegularGames 8%nat (PyIter [CInt 2002; CInt 2004]) false heap1)
  = inr (ODataFrame (Frame extended_header
      [ Row 1 (game 2002 25 1106 77 1354 70 "H" 0 ++ [CNull; CNull]);
        Row 1 (game 2004 11 1272 70 1393 63 "N" 1 ++ [CInt 26; CInt 24]) ])).
Proof. vm_compute. reflexivity. Qed.

Example regular_no_match :
  returned (getRegularGames 8%nat (PyInt 1999) true heap1)
  = inr (ODataFrame (Frame basic_header [])).
Proof. vm_compute. reflexivity. Qed.

Example regular_bool :
  (getRegularGames 8%nat (PyBool true) true heap1).1 = inl TypeError.
Proof. vm_compute. reflexivity. Qed.

Example tourney_all_compact :
  returned (getTourneyGames 8%nat PyNone true heap1)
  = inr (ODataFrame (Frame basic_header
      [ Row 0 (game 1985 136 1116 63 1234 54 "N" 0);
        Row 0 (game 2003 134 1421 92 1411 84 "N" 1) ])).
Proof. vm_compute. reflexivity. Qed.

(** The tournament files of the second directory lack a regular-season
    column: every tournament query raises, whatever the season, while the
    regular query answers. *)
Example tourney_missing_column :
  returned (getRegularGames 8%nat (PyInt 1999) true heap2)
  = inr (ODataFrame (Frame crowd_header []))
  ∧ (getTourneyGames 8%nat PyNone true heap2).1
    = inl (KeyError [CStr "Crowd"])
  ∧ (getTourneyGames 8%nat (PyInt 2003) false heap2).1
    = inl (KeyError [CStr "Crowd"]).
Proof. vm_compute. repeat split; reflexivity. Qed.

Example team_found :
  getTeam 8%nat (CInt 1102) heap1 = (inr (CStr "Air Force"), heap1).
Proof. vm_compute. reflexivity. Qed.

Example team_unknown :
  getTeam 8%nat (CInt 7) heap1 = (inl (KeyError [CInt 7]), heap1).
Proof. vm_compute. reflexivity. Qed.

(** Seasons.csv of the sample lists 1986, 1985, 1986: the years come out in
    file order, unsorted. *)
Example years_in_file_order :
  returned (getYears 8%nat heap1) = inr (OList [CInt 1986; CInt 1985]).
Proof. vm_compute. reflexivity. Qed.

(** Team 1207 is seeded twice in 1985: the later row wins. *)
Example seeds_last_wins :
  returned (getSeeds 8%nat 1985 heap1)
  = inr (ODict (<[KInt 1210 := CStr "W02"]>
                  (<[KInt 1207 := CStr "X16"]> ∅))).
Proof. vm_compute. reflexivity. Qed.

Example seeds_no_rows : returned (getSeeds 8%nat 2020 heap1) = inr (ODict ∅).
Proof. vm_compute. reflexivity. Qed.

(** In the fifth directory two teams have a blank id in a column of string
    ids: both rows are filed under [numpy.nan], the later one wins, and a
    caller who passes [numpy.nan] finds it; a NaN of the caller's own is not
    found. *)
Example team_nan :
  getTeam 8%nat CNaObj heap5 = (inr (CStr "Phantom"), heap5)
  ∧ getTeam 8%nat CNull heap5 = (inl (KeyError [CNull]), heap5).
Proof. vm_compute. split; reflexivity. Qed.

(** Its seeds file has two rows of 1985 with a blank team in a column of
    numbers: each is a key of its own. *)
Example seeds_nan_keys :
  returned (getSeeds 8%nat 1985 heap5)
  = inr (ODict (<[KInt 1207 := CStr "W03"]>
                  (<[KNaN 1 := CStr "W02"]> (<[KNaN 0 := CStr "W01"]> ∅)))).
Proof. vm_compute. reflexivity. Qed.

(** A file that is there and cannot be parsed raises the parser's error,
    at the point where the constructor reads it. *)
Example construct_unreadable :
  __init__ Broken.fs_bad_tourney "d/" [] = (inl ParserError, [])
  ∧ (__init__ Broken.fs_empty_slots "d/" []).1 = inl EmptyDataError.
Proof. vm_compute. split; reflexivity. Qed.

End Examples.

(** ** Beyond the specification: the constructor *)

Import More.

Lemma dict_of_columns_run df kc vc :
  kc ∈ columns df → vc ∈ columns df →
  ∃ d, dict_of_columns df kc vc = inr d.
Proof.
  intros Hk Hv. unfold dict_of_columns, getattr_col.
  rewrite !decide_True by done. by eexists.
Qed.

Lemma dict_of_columns_inl_key df kc vc :
  kc ∉ columns df → dict_of_columns df kc vc = inl (AttributeError kc).
Proof.
  intros Hk. unfold dict_of_columns, getattr_col.
  by rewrite decide_False by done.
Qed.

Lemma dict_of_columns_inl_value df kc vc :
  kc ∈ columns df → vc ∉ columns df →
  dict_of_columns df kc vc = inl (AttributeError vc).
Proof.
  intros Hk Hv. unfold dict_of_columns, getattr_col.
  rewrite decide_True by done. by rewrite decide_False by done.
Qed.


(** X2.  The four result files are read, in a fixed order, before anything
    else is done.  The first of them that pandas cannot read decides the
    exception: [FileNotFoundError] naming the path when the file is absent,
    the error of the parser when the file is there and cannot be parsed.
    Nothing has been allocated by then.  The path is the directory string
    followed directly by the file name. *)
Theorem init_missing_result_file (fs : filesystem) datadir (h0 : heap) e :
  (∀ path,
     (file_at fs path = Absent →
      read_error fs path = Some (FileNotFoundError path))
     ∧ (∀ e', file_at fs path = Unreadable e' → read_error fs path = Some e')
     ∧ (is_Some (fs path) ↔ read_error fs path = None))
  ∧ (read_error fs (path_regular_comp datadir) = Some e →
     __init__ fs datadir h0 = (inl e, h0))
  ∧ (is_Some (fs (path_regular_comp datadir)) →
     read_error fs (path_tourney_comp datadir) = Some e →
     __init__ fs datadir h0 = (inl e, h0))
  ∧ (is_Some (fs (path_regular_comp datadir)) →
     is_Some (fs (path_tourney_comp datadir)) →
     read_error fs (path_regular_det datadir) = Some e →
     __init__ fs datadir h0 = (inl e, h0))
  ∧ (is_Some (fs (path_regular_comp datadir)) →
     is_Some (fs (path_tourney_comp datadir)) →
     is_Some (fs (path_regular_det datadir)) →
     read_error fs (path_tourney_det datadir) = Some e →
     __init__ fs datadir h0 = (inl e, h0)).
Proof.
  split.
  { intros path. unfold read_error, table_at.
    destruct (file_at fs path) as [|e'|t]; repeat split; try done.
    by intros e2 [= ->]. }
  unfold path_regular_comp, path_tourney_comp, path_regular_det,
    path_tourney_det, __init__.
  repeat split.
  - intros He. by rewrite (Run.read_csv_error _ _ _ He).
  - intros [t1 H1] He.
    by rewrite (Run.read_csv_table _ _ _ H1), (Run.read_csv_error _ _ _ He).
  - intros [t1 H1] [t2 H2] He.
    by rewrite (Run.read_csv_table _ _ _ H1), (Run.read_csv_table _ _ _ H2),
      (Run.read_csv_error _ _ _ He).
  - intros [t1 H1] [t2 H2] [t3 H3] He.
    by rewrite (Run.read_csv_table _ _ _ H1), (Run.read_csv_table _ _ _ H2),
      (Run.read_csv_table _ _ _ H3), (Run.read_csv_error _ _ _ He).
Qed.

Lemma series_lt_string s n :
  Exists (λ x, ∃ t, x = CStr t) s → series_lt s n = inl TypeError.
Proof.
  induction s as [|x s IH]; intros Hex; [by apply Exists_nil in Hex|].
  simpl. destruct x as [z|t| |]; simpl; [|done| |];
    (apply Exists_cons in Hex as [(t' & [=])|Hex]; by rewrite IH).
Qed.

Lemma merge_results_no_season comp det :
  "Season" ∉ columns comp →
  merge_results comp det = inl (KeyError [CStr "Season"]).
Proof.
  intros Hn. unfold merge_results, getitem_col. by rewrite decide_False.
Qed.

Lemma merge_results_string (a : csv) det :
  "Season" ∈ header a → season_has_string a →
  merge_results (frame_of_csv a) det = inl TypeError.
Proof.
  intros Hin Hstr. unfold merge_results, getitem_col.
  rewrite decide_True by done. rewrite series_lt_string; [done|].
  by apply Exists_fmap.
Qed.

(** X3.  With the four result files present, the Season column of the two compact
    files decides whether construction goes on: a compact file without a
    Season column raises [KeyError], one with a string for Season raises
    [TypeError] from the comparison with 2003.  The regular-season file is
    examined first, and its failure leaves the heap untouched; Teams.csv and
    the files after it have not been opened by then. *)
Theorem init_season_column_errors (fs : filesystem) datadir (h0 : heap) rc tc rd td :
  fs (path_regular_comp datadir) = Some rc →
  fs (path_tourney_comp datadir) = Some tc →
  fs (path_regular_det datadir) = Some rd →
  fs (path_tourney_det datadir) = Some td →
  ("Season" ∉ header rc →
   __init__ fs datadir h0 = (inl (KeyError [CStr "Season"]), h0))
  ∧ ("Season" ∈ header rc → season_has_string rc →
     __init__ fs datadir h0 = (inl TypeError, h0))
  ∧ (orderable_season rc → "Season" ∉ header tc →
     (__init__ fs datadir h0).1 = inl (KeyError [CStr "Season"]))
  ∧ (orderable_season rc → "Season" ∈ header tc → season_has_string tc →
     (__init__ fs datadir h0).1 = inl TypeError).
Proof.
  unfold path_regular_comp, path_tourney_comp, path_regular_det,
    path_tourney_det.
  intros H1 H2 H3 H4. unfold __init__.
  rewrite (Run.read_csv_table _ _ _ H1), (Run.read_csv_table _ _ _ H2),
    (Run.read_csv_table _ _ _ H3), (Run.read_csv_table _ _ _ H4).
  cbv beta iota zeta delta [bind ret].
  repeat split.
  - intros Hn.
    by rewrite (merge_results_no_season (frame_of_csv rc) (frame_of_csv rd)).
  - intros Hin Hstr. by rewrite (merge_results_string rc _ Hin Hstr).
  - intros [Hr1 Hr2] Hn.
    rewrite (Init.merge_results_run (frame_of_csv rc) (frame_of_csv rd)
               Hr1 Hr2).
    cbv beta iota zeta delta [lift ret alloc].
    by rewrite (merge_results_no_season (frame_of_csv tc) (frame_of_csv td)).
  - intros [Hr1 Hr2] Hin Hstr.
    rewrite (Init.merge_results_run (frame_of_csv rc) (frame_of_csv rd)
               Hr1 Hr2).
    cbv beta iota zeta delta [lift ret alloc].
    by rewrite (merge_results_string tc _ Hin Hstr).
Qed.

Lemma init_season_column_errors_witness :
  __init__ Broken.fs_no_season "b/" [] = (inl (KeyError [CStr "Season"]), []).
Proof.
  refine (proj1 (init_season_column_errors Broken.fs_no_season "b/" []
                   Sample.teams_csv Sample.tourney_compact
                   Sample.regular_detailed Sample.tourney_detailed
                   _ _ _ _) _).
  - vm_compute. reflexivity.
  - vm_compute. reflexivity.
  - vm_compute. reflexivity.
  - vm_compute. reflexivity.
  - apply (bool_decide_unpack _). vm_compute. exact I.
Defined.

(** X4.  Once the two merged tables are built, the constructor opens
    Teams.csv, Seasons.csv, TourneySeeds.csv and TourneySlots.csv in this
    order.  A Teams.csv without the column Team_Id, or with it but without
    Team_Name, raises [AttributeError] naming the column.  The first of the
    four files that pandas cannot read decides the exception otherwise:
    [FileNotFoundError] naming its path when it is absent, the error of the
    parser when it is there and cannot be parsed. *)
Theorem init_later_errors (fs : filesystem) datadir (h0 : heap) rc tc rd td e :
  fs (path_regular_comp datadir) = Some rc →
  fs (path_tourney_comp datadir) = Some tc →
  fs (path_regular_det datadir) = Some rd →
  fs (path_tourney_det datadir) = Some td →
  orderable_season rc →
  orderable_season tc →
  (read_error fs (path_teams datadir) = Some e →
   (__init__ fs datadir h0).1 = inl e)
  ∧ (∀ tm, fs (path_teams datadir) = Some tm →
       ("Team_Id" ∉ header tm →
        (__init__ fs datadir h0).1 = inl (AttributeError "Team_Id"))
       ∧ ("Team_Id" ∈ header tm → "Team_Name" ∉ header tm →
          (__init__ fs datadir h0).1 = inl (AttributeError "Team_Name"))
       ∧ ("Team_Id" ∈ header tm → "Team_Name" ∈ header tm →
          (read_error fs (path_seasons datadir) = Some e →
           (__init__ fs datadir h0).1 = inl e)
          ∧ (is_Some (fs (path_seasons datadir)) →
             read_error fs (path_seeds datadir) = Some e →
             (__init__ fs datadir h0).1 = inl e)
          ∧ (is_Some (fs (path_seasons datadir)) →
             is_Some (fs (path_seeds datadir)) →
             read_error fs (path_slots datadir) = Some e →
             (__init__ fs datadir h0).1 = inl e)))
  ∧ (∀ path,
       (file_at fs path = Absent →
        read_error fs path = Some (FileNotFoundError path))
       ∧ (∀ e', file_at fs path = Unreadable e' →
            read_error fs path = Some e')).
Proof.
  unfold path_regular_comp, path_tourney_comp, path_regular_det,
    path_tourney_det, path_teams, path_seasons, path_seeds, path_slots.
  intros H1 H2 H3 H4 [Hr1 Hr2] [Ht1 Ht2].
  split; [|split];
    [| |intros path; unfold read_error; split; [by intros ->|];
          by intros e' ->];
    unfold __init__;
    rewrite (Run.read_csv_table _ _ _ H1), (Run.read_csv_table _ _ _ H2),
      (Run.read_csv_table _ _ _ H3), (Run.read_csv_table _ _ _ H4);
    cbv beta iota zeta delta [bind ret];
    rewrite (Init.merge_results_run (frame_of_csv rc) (frame_of_csv rd)
               Hr1 Hr2);
    cbv beta iota zeta delta [lift ret alloc];
    rewrite (Init.merge_results_run (frame_of_csv tc) (frame_of_csv td)
               Ht1 Ht2);
    cbv beta iota zeta delta [lift ret alloc].
  - intros He. by rewrite (Run.read_csv_error _ _ _ He).
  - intros tm Htm. rewrite (Run.read_csv_table _ _ _ Htm).
    cbv beta iota zeta delta [lift ret alloc].
    split; [|split].
    + intros Hn.
      by rewrite (dict_of_columns_inl_key (frame_of_csv tm)) by done.
    + intros Hid Hn.
      by rewrite (dict_of_columns_inl_value (frame_of_csv tm)) by done.
    + intros Hid Hname.
      destruct (dict_of_columns_run (frame_of_csv tm) "Team_Id" "Team_Name"
                  Hid Hname) as [d ->].
      cbv beta iota zeta delta [lift ret alloc].
      split; [|split].
      * intros He. by rewrite (Run.read_csv_error _ _ _ He).
      * intros [t6 H6] He.
        by rewrite (Run.read_csv_table _ _ _ H6),
          (Run.read_csv_error _ _ _ He).
      * intros [t6 H6] [t7 H7] He.
        by rewrite (Run.read_csv_table _ _ _ H6),
          (Run.read_csv_table _ _ _ H7), (Run.read_csv_error _ _ _ He).
Qed.

Lemma init_later_errors_witness :
  (__init__ Broken.fs_empty_slots "d/" []).1 = inl EmptyDataError.
Proof.
  refine (proj2 (proj2 (proj2 (proj2
            (proj1 (proj2 (init_later_errors Broken.fs_empty_slots "d/" []
                             Sample.regular_compact Sample.tourney_compact
                             Sample.regular_detailed Sample.tourney_detailed
                             EmptyDataError _ _ _ _ _ _))
               Sample.teams_csv _)) _ _)) _ _ _).
  - vm_compute. reflexivity.
  - vm_compute. reflexivity.
  - vm_compute. reflexivity.
  - vm_compute. reflexivity.
  - split; [apply (bool_decide_unpack _); vm_compute; exact I|].
    apply (bool_decide_unpack _). vm_compute. exact I.
  - split; [apply (bool_decide_unpack _); vm_compute; exact I|].
    apply (bool_decide_unpack _). vm_compute. exact I.
  - vm_compute. reflexivity.
  - apply (bool_decide_unpack _). vm_compute. exact I.
  - apply (bool_decide_unpack _). vm_compute. exact I.
  - vm_compute. by eexists.
  - vm_compute. by eexists.
  - vm_compute. reflexivity.
Defined.

Ltac not_in_list :=
  let Hin := fresh "Hin" in
  intros Hin;
  repeat (apply elem_of_cons in Hin as [Hin|Hin]; [lia|]);
  by apply elem_of_nil in Hin.

Lemma locations_instance_at n datadir :
  NoDup (locations (n + 8)%nat (instance_at n datadir))
  ∧ ∀ l, l ∈ locations (n + 8)%nat (instance_at n datadir)
         ↔ (n ≤ l < n + 9)%nat.
Proof.
  unfold locations, instance_at. simpl. split.
  - repeat (apply NoDup_cons; split; [not_in_list|]). apply NoDup_nil_2.
  - intros l. rewrite !elem_of_cons, elem_of_nil. lia.
Qed.

(** X5.  The constructor changes no object that existed before it ran, whether it
    returns or raises.  The instance it returns occupies nine locations that
    held nothing before: the instance and one object for each of its eight
    object attributes, all distinct, so that no two attributes share an
    object; [datadir] is kept as given. *)
Theorem init_fresh_instance fs datadir (h0 : heap) :
  keeps h0 (__init__ fs datadir h0).2
  ∧ ∀ self h,
      __init__ fs datadir h0 = (inr self, h) →
      ∃ ds,
        h !! self = Some (OInstance ds)
        ∧ Py.datadir ds = datadir
        ∧ NoDup (locations self ds)
        ∧ ∀ l, l ∈ locations self ds → h0 !! l = None ∧ is_Some (h !! l).
Proof.
  split.
  - unfold __init__, read_csv. run_all;
      intros l o Hl; repeat apply lookup_app_l_Some; done.
  - intros self h (p & d & _ & _ & _ & _ & -> & ->)%Init.init_inv.
    exists (instance_at (length h0) datadir).
    destruct (locations_instance_at (length h0) datadir) as [Hnd Hin].
    split; [apply Init.at_self|]. split; [done|]. split; [done|].
    intros l [Hge Hlt]%Hin. split; [by apply lookup_ge_None|].
    apply lookup_lt_is_Some. rewrite length_app. simpl. lia.
Qed.

(** X6.  Two instances built one after the other share no object: constructing
    the second leaves the first instance and all its tables, lists and dict
    as they were, and no location of the second is a location of the first,
    even when both read the same directory. *)
Theorem instances_share_nothing fs1 datadir1 fs2 datadir2
    (h0 : heap) self1 h1 self2 h2 :
  __init__ fs1 datadir1 h0 = (inr self1, h1) →
  __init__ fs2 datadir2 h1 = (inr self2, h2) →
  ∃ ds1 ds2,
    h1 !! self1 = Some (OInstance ds1)
    ∧ h2 !! self2 = Some (OInstance ds2)
    ∧ keeps h1 h2
    ∧ ∀ l, l ∈ locations self1 ds1 →
        is_Some (h1 !! l) ∧ h2 !! l = h1 !! l ∧ l ∉ locations self2 ds2.
Proof.
  intros (p1 & d1 & _ & _ & _ & _ & -> & ->)%Init.init_inv
         (p2 & d2 & _ & _ & _ & _ & -> & ->)%Init.init_inv.
  set (h1 := h0 ++ init_objects (length h0) datadir1 p1 d1).
  exists (instance_at (length h0) datadir1), (instance_at (length h1) datadir2).
  destruct (locations_instance_at (length h0) datadir1) as [_ Hin1].
  destruct (locations_instance_at (length h1) datadir2) as [_ Hin2].
  assert (length h1 = length h0 + 9)%nat as Hlen
    by (unfold h1; rewrite length_app; simpl; lia).
  split; [apply Init.at_self|]. split; [apply Init.at_self|].
  split; [intros l o Hl; by apply lookup_app_l_Some|].
  intros l [Hge Hlt]%Hin1.
  assert (is_Some (h1 !! l)) as [o Ho] by (apply lookup_lt_is_Some; lia).
  split; [by eexists|]. split.
  - transitivity (Some o); [by apply lookup_app_l_Some | done].
  - intros [Hge' _]%Hin2. lia.
Qed.

Lemma instances_share_nothing_witness :
  ∃ ds1 ds2,
    Sample.heap1 !! 8%nat = Some (OInstance ds1)
    ∧ (__init__ Sample.fs "d/" Sample.heap1).2 !! 17%nat
      = Some (OInstance ds2)
    ∧ keeps Sample.heap1 (__init__ Sample.fs "d/" Sample.heap1).2
    ∧ ∀ l, l ∈ locations 8%nat ds1 →
        is_Some (Sample.heap1 !! l)
        ∧ (__init__ Sample.fs "d/" Sample.heap1).2 !! l = Sample.heap1 !! l
        ∧ l ∉ locations 17%nat ds2.
Proof.
  apply (instances_share_nothing Sample.fs "d/" Sample.fs "d/" []).
  - vm_compute. reflexivity.
  - vm_compute. reflexivity.
Defined.

(** ** Beyond the specification: the game queries *)



Lemma labels_frame_of_csv (t : csv) :
  label <$> rows (frame_of_csv t) = seq 0 (length (records t)).
Proof.
  unfold frame_of_csv. cbn [rows]. rewrite fmap_imap.
  rewrite (imap_ext _ (λ n _, n)) by done.
  by rewrite (imap_seq_0 _ (λ n, n)), list_fmap_id.
Qed.

Lemma row_of_frame_of_csv (t : csv) r :
  r ∈ rows (frame_of_csv t) → records t !! label r = Some (cells r).
Proof.
  unfold frame_of_csv. cbn [rows].
  intros (i & Hi)%list_elem_of_lookup_1.
  rewrite list_lookup_imap in Hi.
  destruct (records t !! i) as [rec|] eqn:Hrec; [|done].
  simpl in Hi. by injection Hi as <-.
Qed.









(** X8.  The rows a game query returns carry the index labels pandas gave them
    when their file was read: the label of a row is the position of its
    record in its own file.  The merged table is not renumbered, so its
    labels start again at 0 where the detailed rows begin, and a label is
    carried twice as soon as a kept compact row has a position that the
    detailed file also has. *)
Theorem regular_games_labels fs datadir (h0 : heap) self h p compact :
  __init__ fs datadir h0 = (inr self, h) →
  holds fs datadir p →
  ∃ out,
    getRegularGames self PyNone compact h
    = (inr (length h), h ++ [ODataFrame out])
    ∧ label <$> rows out
      = (label <$> filter (season_before 2003 (header (regular_comp p)))
                     (rows (frame_of_csv (regular_comp p))))
        ++ seq 0 (length (records (regular_det p)))
    ∧ (∀ r, r ∈ filter (season_before 2003 (header (regular_comp p)))
                  (rows (frame_of_csv (regular_comp p))) →
         records (regular_comp p) !! label r = Some (cells r)
         ∧ ((label r < length (records (regular_det p)))%nat →
            ¬ NoDup (label <$> rows out))).
Proof.
  intros Hinit Hp.
  destruct (Built.init_built_for _ _ _ _ _ _ Hinit Hp) as [ds B].
  open_built B.
  pose proof (Built.season_in_merged (frame_of_csv (regular_comp p))
                (frame_of_csv (regular_det p)) built_regular_season) as Hseason.
  destruct (Built.games_body_answers regular_results h self ds _ _ compact
              built_self (built_headers compact) built_regular Hseason
              (Built.regular_headers_present p compact))
    as (Hnone & _).
  rewrite Games.getRegularGames_body.
  eexists. split; [apply Hnone|]. cbn [rows].
  assert (label <$>
            (project_row
               (columns (merged (frame_of_csv (regular_comp p))
                           (frame_of_csv (regular_det p))))
               (CStr <$> header (header_file p compact))
               <$> rows (merged (frame_of_csv (regular_comp p))
                           (frame_of_csv (regular_det p))))
          = (label <$> filter (season_before 2003 (header (regular_comp p)))
                         (rows (frame_of_csv (regular_comp p))))
            ++ seq 0 (length (records (regular_det p)))) as Hlabels.
  { rewrite <-list_fmap_compose, Merge.rows_merged.
    rewrite fmap_app, <-!list_fmap_compose.
    rewrite <-(labels_frame_of_csv (regular_det p)). done. }
  split; [exact Hlabels|].
  intros r Hr. split.
  - apply row_of_frame_of_csv.
    by apply list_elem_of_filter in Hr as [_ Hr].
  - intros Hlt. rewrite Hlabels. intros (_ & Hdisj & _)%NoDup_app.
    apply (Hdisj (label r)); [by apply list_elem_of_fmap_2|].
    apply elem_of_seq. lia.
Qed.

Lemma regular_games_labels_witness :
  ∃ out,
    getRegularGames 8%nat PyNone true Sample.heap1
    = (inr (length Sample.heap1), Sample.heap1 ++ [ODataFrame out])
    ∧ label <$> rows out = [0; 1; 0; 1]%nat.
Proof.
  destruct (regular_games_labels Sample.fs "d/" [] 8%nat Sample.heap1
              Sample.parsed_files true) as (out & Hcall & Hlabels & _).
  - vm_compute. reflexivity.
  - vm_compute. repeat split; reflexivity.
  - exists out. split; [exact Hcall|]. exact Hlabels.
Defined.

Lemma isin_same_elements s (v1 v2 : list cell) :
  (∀ x, x ∈ v1 ↔ x ∈ v2) → isin s v1 = isin s v2.
Proof.
  intros Hv. unfold isin. apply list_fmap_ext. intros i x _.
  apply bool_decide_ext. unfold cell_in. rewrite (Hv x), !Exists_exists.
  split; (intros [?|[? (y & Hy & ?)]]; [by left|]; right; split; [done|];
          exists y; split; [by apply Hv | done]).
Qed.

Lemma query_same_elements table hs (v1 v2 : list cell) :
  (∀ x, x ∈ v1 ↔ x ∈ v2) →
  Shape.query table hs (PyIter v1) = Shape.query table hs (PyIter v2).
Proof.
  intros Hv. unfold Shape.query.
  destruct (getitem_col table "Season") as [e|s]; [done|].
  by rewrite (isin_same_elements s v1 v2).
Qed.

(** X9.  A collection of seasons counts as a set: two collections with the same
    members, in whatever order and however often repeated, give the same
    outcome in both game queries, the same table or the same exception. *)
Theorem games_season_is_a_set fs datadir (h0 : heap) self h compact
    (v1 v2 : list cell) :
  __init__ fs datadir h0 = (inr self, h) →
  (∀ x, x ∈ v1 ↔ x ∈ v2) →
  getRegularGames self (PyIter v1) compact h
  = getRegularGames self (PyIter v2) compact h
  ∧ getTourneyGames self (PyIter v1) compact h
    = getTourneyGames self (PyIter v2) compact h.
Proof.
  intros (p & ds & B)%Built.init_built Hv.
  open_built B.
  rewrite Games.getRegularGames_body, Games.getTourneyGames_body.
  rewrite !(Games.games_body_run regular_results h self ds _ _ _ compact
              built_self (built_headers compact) built_regular).
  rewrite !(Games.games_body_run tourney_results h self ds _ _ _ compact
              built_self (built_headers compact) built_tourney).
  by rewrite !(query_same_elements _ _ v1 v2 Hv).
Qed.

Lemma games_season_is_a_set_witness :
  getRegularGames 8%nat (PyIter [CInt 2003; CInt 1985]) true Sample.heap1
  = getRegularGames 8%nat (PyIter [CInt 1985; CInt 2003; CInt 1985]) true
      Sample.heap1
  ∧ getTourneyGames 8%nat (PyIter [CInt 2003; CInt 1985]) true Sample.heap1
    = getTourneyGames 8%nat (PyIter [CInt 1985; CInt 2003; CInt 1985]) true
        Sample.heap1.
Proof.
  apply (games_season_is_a_set Sample.fs "d/" [] 8%nat Sample.heap1 true).
  - vm_compute. reflexivity.
  - intros x. rewrite !elem_of_cons, elem_of_nil. tauto.
Defined.

Lemma getitem_list_inr df hs out :
  getitem_list df hs = inr out →
  out = Frame (key_name <$> hs) (project_row (columns df) hs <$> rows df).
Proof.
  unfold getitem_list. destruct (filter _ hs); [|done]. by intros [= <-].
Qed.

Lemma query_sublist table hs values out_all out :
  Shape.query table hs PyNone = inr out_all →
  Shape.query table hs (PyIter values) = inr out →
  columns out = columns out_all ∧ rows out `sublist_of` rows out_all.
Proof.
  unfold Shape.query. intros ->%getitem_list_inr.
  destruct (getitem_col table "Season") as [e|s]; [done|].
  intros ->%getitem_list_inr. split; [done|]. cbn [rows columns loc_mask].
  apply fmap_sublist. clear. revert s.
  induction (rows table) as [|r rs IH]; intros s; simpl.
  - by destruct (isin s values).
  - destruct (isin s values) as [|[|] mask] eqn:E;
      [constructor; apply sublist_nil_l| |].
    + destruct s as [|x s]; [done|]. injection E as _ E.
      apply sublist_skip. rewrite <-E. apply IH.
    + destruct s as [|x s]; [done|]. injection E as _ E.
      apply sublist_cons. rewrite <-E. apply IH.
Qed.

(** X10.  Asking for seasons never adds or reorders anything: when a game query
    answers both without a season and with a collection of seasons, the
    second table has the columns of the first and its rows are rows of the
    first, in the same order. *)
Theorem season_answer_within_all fs datadir (h0 : heap) self h compact values
    l1 h1 l2 h2 :
  __init__ fs datadir h0 = (inr self, h) →
  (getRegularGames self PyNone compact h = (inr l1, h1)
   ∧ getRegularGames self (PyIter values) compact h = (inr l2, h2))
  ∨ (getTourneyGames self PyNone compact h = (inr l1, h1)
     ∧ getTourneyGames self (PyIter values) compact h = (inr l2, h2)) →
  ∃ out_all out,
    h1 !! l1 = Some (ODataFrame out_all)
    ∧ h2 !! l2 = Some (ODataFrame out)
    ∧ columns out = columns out_all
    ∧ rows out `sublist_of` rows out_all.
Proof.
  intros (p & ds & B)%Built.init_built Hcalls.
  open_built B.
  assert (∃ table out_all out,
            Shape.query table (CStr <$> header (header_file p compact)) PyNone
            = inr out_all
            ∧ Shape.query table (CStr <$> header (header_file p compact))
                (PyIter values) = inr out
            ∧ l1 = length h ∧ h1 = h ++ [ODataFrame out_all]
            ∧ l2 = length h ∧ h2 = h ++ [ODataFrame out])
    as (table & out_all & out & Hq1 & Hq2 & -> & -> & -> & ->).
  { destruct Hcalls as [[Ha Hb]|[Ha Hb]].
    - rewrite Games.getRegularGames_body in Ha, Hb.
      eapply Games.games_body_inr in Ha as (out_all & ? & ? & ?); [|done..].
      eapply Games.games_body_inr in Hb as (out & ? & ? & ?); [|done..].
      by eauto 10.
    - rewrite Games.getTourneyGames_body in Ha, Hb.
      eapply Games.games_body_inr in Ha as (out_all & ? & ? & ?); [|done..].
      eapply Games.games_body_inr in Hb as (out & ? & ? & ?); [|done..].
      by eauto 10. }
  exists out_all, out. rewrite !Run.lookup_new_0. do 2 (split; [done|]).
  by eapply query_sublist.
Qed.

Lemma season_answer_within_all_witness :
  ∃ out_all out,
    (Sample.heap1
       ++ [ODataFrame (Frame Sample.basic_header
             [ Row 0 (Sample.game 1985 136 1116 63 1234 54 "N" 0);
               Row 0 (Sample.game 2003 134 1421 92 1411 84 "N" 1) ])])
      !! 9%nat = Some (ODataFrame out_all)
    ∧ (Sample.heap1
         ++ [ODataFrame (Frame Sample.basic_header
               [ Row 0 (Sample.game 2003 134 1421 92 1411 84 "N" 1) ])])
        !! 9%nat = Some (ODataFrame out)
    ∧ columns out = columns out_all
    ∧ rows out `sublist_of` rows out_all.
Proof.
  apply (season_answer_within_all Sample.fs "d/" [] 8%nat Sample.heap1 true
           [CInt 2003]).
  - vm_compute. reflexivity.
  - right. split; vm_compute; reflexivity.
Defined.

Lemma getitem_list_inr_present df hs out :
  getitem_list df hs = inr out → Forall (key_in_columns (columns df)) hs.
Proof.
  intros Hget. apply Built.missing_from_Forall. unfold missing_from.
  unfold getitem_list in Hget. by destruct (filter _ hs).
Qed.

(** Selecting columns twice is selecting once: [df[b][a] = df[a]] for
    [a] among [b]. *)
Lemma getitem_list_compose df (a b : list string) out_e :
  a ⊆ b →
  getitem_list df (CStr <$> b) = inr out_e →
  getitem_list out_e (CStr <$> a) = getitem_list df (CStr <$> a).
Proof.
  intros Hab Hb.
  pose proof (getitem_list_inr_present _ _ _ Hb) as Hpres.
  apply Games.headers_in_columns_inv in Hpres.
  apply getitem_list_inr in Hb as ->.
  rewrite !Games.getitem_list_run; cbn [columns rows].
  - f_equal. f_equal. rewrite <-list_fmap_compose.
    apply list_fmap_ext. intros i r _. simpl.
    unfold project_row at 1 3. cbn [label]. f_equal.
    apply list_fmap_ext. intros j k Hk. simpl.
    apply list_elem_of_lookup_2, list_elem_of_fmap in Hk as (c & -> & Hc).
    simpl. apply PandasFacts.cell_at_project.
    by apply list_elem_of_fmap_2, Hab.
  - apply Games.headers_in_columns. by etrans.
  - apply Games.headers_in_columns. rewrite Games.key_name_columns. done.
Qed.

Lemma query_compose table (a b : list string) season out_e :
  a ⊆ b →
  Shape.query table (CStr <$> b) season = inr out_e →
  Shape.query table (CStr <$> a) season = getitem_list out_e (CStr <$> a).
Proof.
  intros Hab. unfold Shape.query.
  destruct season as [|z|flag|x|values];
    try destruct (getitem_col table "Season") as [e|s]; try done;
    intros Hb; symmetry; by eapply getitem_list_compose.
Qed.

(** X11.  The compact answer is the detailed answer cut down to the compact
    columns: when the compact header is part of the detailed header, a game
    query that answers with [compact=False] answers with [compact=True] too,
    with the table that selecting the compact columns from the detailed
    answer gives: the same rows, labels and values, for every season
    argument. *)
Theorem compact_from_detailed fs datadir (h0 : heap) self h p season l h' :
  __init__ fs datadir h0 = (inr self, h) →
  holds fs datadir p →
  header (regular_comp p) ⊆ header (regular_det p) →
  getRegularGames self season false h = (inr l, h')
  ∨ getTourneyGames self season false h = (inr l, h') →
  ∃ out_e out_c,
    h' !! l = Some (ODataFrame out_e)
    ∧ getitem_list out_e (CStr <$> header (regular_comp p)) = inr out_c
    ∧ (getRegularGames self season false h = (inr l, h') →
       getRegularGames self season true h
       = (inr (length h), h ++ [ODataFrame out_c]))
    ∧ (getTourneyGames self season false h = (inr l, h') →
       getTourneyGames self season true h
       = (inr (length h), h ++ [ODataFrame out_c])).
Proof.
  intros Hinit Hp Hsub Hcall.
  destruct (Built.init_built_for _ _ _ _ _ _ Hinit Hp) as [ds B].
  open_built B.
  pose proof (built_headers true) as Hhc. pose proof (built_headers false) as Hhe.
  unfold header_file in Hhc, Hhe.
  rewrite Games.getRegularGames_body, Games.getTourneyGames_body in *.
  assert (∀ results table,
            h !! results ds = Some (ODataFrame table) →
            Shape.games_body results self season false h = (inr l, h') →
            ∃ out_e out_c,
              h' !! l = Some (ODataFrame out_e)
              ∧ getitem_list out_e (CStr <$> header (regular_comp p))
                = inr out_c
              ∧ Shape.games_body results self season true h
                = (inr (length h), h ++ [ODataFrame out_c])) as Hgen.
  { intros results table Htab He.
    eapply Games.games_body_inr in He as (out_e & Hq & -> & ->); [|done..].
    pose proof (query_compose table _ _ season out_e Hsub Hq) as Hqc.
    assert (∃ out_c, getitem_list out_e (CStr <$> header (regular_comp p))
                     = inr out_c) as [out_c Hc].
    { pose proof Hq as Hq'. unfold Shape.query in Hq'.
      assert (∃ df, getitem_list df (CStr <$> header (regular_det p))
                    = inr out_e) as [df Hdf].
      { destruct season as [|z|flag|x|values];
          try destruct (getitem_col table "Season") as [e|s]; try done;
          by eexists. }
      rewrite (getitem_list_compose df _ _ out_e Hsub Hdf).
      rewrite Games.getitem_list_run; [by eexists|].
      apply Games.headers_in_columns. etrans; [done|].
      by apply Games.headers_in_columns_inv, (getitem_list_inr_present _ _ out_e). }
    exists out_e, out_c. split; [by rewrite Run.lookup_new_0|].
    split; [done|].
    rewrite (Games.games_body_run results h self ds _ table season true
               built_self Hhc Htab).
    by rewrite Hqc, Hc. }
  destruct Hcall as [Hcall|Hcall].
  - destruct (Hgen regular_results _ built_regular Hcall)
      as (out_e & out_c & Hl & Hc & Hrun).
    exists out_e, out_c. do 2 (split; [done|]). split; [done|].
    intros Ht. destruct (Hgen tourney_results _ built_tourney Ht)
      as (out_e' & out_c' & Hl' & Hc' & Hrun').
    rewrite Hl in Hl'. injection Hl' as <-. rewrite Hc in Hc'.
    by injection Hc' as <-.
  - destruct (Hgen tourney_results _ built_tourney Hcall)
      as (out_e & out_c & Hl & Hc & Hrun).
    exists out_e, out_c. do 2 (split; [done|]). split; [|done].
    intros Hr. destruct (Hgen regular_results _ built_regular Hr)
      as (out_e' & out_c' & Hl' & Hc' & Hrun').
    rewrite Hl in Hl'. injection Hl' as <-. rewrite Hc in Hc'.
    by injection Hc' as <-.
Qed.

Lemma compact_from_detailed_witness :
  ∃ out_e out_c,
    getitem_list out_e (CStr <$> Sample.basic_header) = inr out_c
    ∧ getRegularGames 8%nat (PyInt 2003) true Sample.heap1
      = (inr 9%nat, Sample.heap1 ++ [ODataFrame out_c]).
Proof.
  destruct (compact_from_detailed Sample.fs "d/" [] 8%nat Sample.heap1
              Sample.parsed_files (PyInt 2003) 9%nat
              (getRegularGames 8%nat (PyInt 2003) false Sample.heap1).2)
    as (out_e & out_c & _ & Hc & Hr & _).
  - vm_compute. reflexivity.
  - vm_compute. repeat split; reflexivity.
  - apply (bool_decide_unpack _). vm_compute. exact I.
  - left. vm_compute. reflexivity.
  - exists out_e, out_c. split; [exact Hc|].
    apply Hr. vm_compute. reflexivity.
Defined.

(** ** Beyond the specification: seeds, years and the unused table *)

Lemma getSeeds_gen (h : heap) self ds df season :
  h !! self = Some (OInstance ds) →
  h !! seeds ds = Some (ODataFrame df) →
  getSeeds self season h
  = match seeds_result df season with
    | inr d => (inr (length h), h ++ [ODict d])
    | inl e => (inl e, h)
    end.
Proof.
  intros Hself Hseeds. unfold getSeeds.
  rewrite (Run.bind_inr _ _ _ _ _ (Run.get_instance_run _ _ _ Hself)).
  rewrite (Run.bind_inr _ _ _ _ _ (Run.get_frame_run _ _ _ Hseeds)).
  unfold seeds_result, bind, lift, ret, raise, alloc.
  destruct (getitem_col df "Season") as [e|s]; [done|].
  by destruct (dict_of_columns _ "Team" "Seed").
Qed.

Lemma getYears_gen (h : heap) self ds df :
  h !! self = Some (OInstance ds) →
  h !! seasons ds = Some (ODataFrame df) →
  getYears self h
  = match getattr_col df "Season" with
    | inr s => (inr (length h), h ++ [OList (unique s)])
    | inl e => (inl e, h)
    end.
Proof.
  intros Hself Hseasons. unfold getYears.
  rewrite (Run.bind_inr _ _ _ _ _ (Run.get_instance_run _ _ _ Hself)).
  rewrite (Run.bind_inr _ _ _ _ _ (Run.get_frame_run _ _ _ Hseasons)).
  unfold bind, lift, ret, raise, alloc.
  by destruct (getattr_col df "Season").
Qed.

(** X12.  [getSeeds] on a seeds file with other column names: without a Season
    column it raises [KeyError], with Season but without Team it raises
    [AttributeError] for Team, and with both but without Seed,
    [AttributeError] for Seed; this for every season, matched or not, and
    with nothing allocated. *)
Theorem getSeeds_column_errors fs datadir (h0 : heap) self h p season :
  __init__ fs datadir h0 = (inr self, h) →
  holds fs datadir p →
  ("Season" ∉ header (seeds_file p) →
   getSeeds self season h = (inl (KeyError [CStr "Season"]), h))
  ∧ ("Season" ∈ header (seeds_file p) → "Team" ∉ header (seeds_file p) →
     getSeeds self season h = (inl (AttributeError "Team"), h))
  ∧ ("Season" ∈ header (seeds_file p) → "Team" ∈ header (seeds_file p) →
     "Seed" ∉ header (seeds_file p) →
     getSeeds self season h = (inl (AttributeError "Seed"), h)).
Proof.
  intros Hinit Hp.
  destruct (Built.init_built_for _ _ _ _ _ _ Hinit Hp) as [ds B].
  open_built B.
  rewrite (getSeeds_gen h self ds _ season built_self built_seeds).
  unfold seeds_result, getitem_col. cbn [columns frame_of_csv].
  split; [|split].
  - intros Hn. by rewrite decide_False by done.
  - intros Hs Hn. rewrite decide_True by done.
    by rewrite dict_of_columns_inl_key.
  - intros Hs Ht Hn. rewrite decide_True by done.
    by rewrite dict_of_columns_inl_value.
Qed.

Lemma getSeeds_column_errors_witness :
  getSeeds 8%nat 1985 Broken.heap_renamed
  = (inl (AttributeError "Team"), Broken.heap_renamed).
Proof.
  refine (proj1 (proj2 (getSeeds_column_errors Broken.fs_seeds_renamed "g/" []
                          8%nat Broken.heap_renamed Broken.parsed_renamed 1985
                          _ _)) _ _).
  - vm_compute. reflexivity.
  - vm_compute. repeat split; reflexivity.
  - apply (bool_decide_unpack _). vm_compute. exact I.
  - apply (bool_decide_unpack _). vm_compute. exact I.
Defined.

(** X13.  [getYears] on a season table without a Season column raises
    [AttributeError] and allocates nothing. *)
Theorem getYears_no_column fs datadir (h0 : heap) self h p :
  __init__ fs datadir h0 = (inr self, h) →
  holds fs datadir p →
  "Season" ∉ header (seasons_file p) →
  getYears self h = (inl (AttributeError "Season"), h).
Proof.
  intros Hinit Hp Hn.
  destruct (Built.init_built_for _ _ _ _ _ _ Hinit Hp) as [ds B].
  open_built B.
  rewrite (getYears_gen h self ds _ built_self built_seasons).
  unfold getattr_col. cbn [columns frame_of_csv].
  by rewrite decide_False by done.
Qed.

Lemma getYears_no_column_witness :
  getYears 8%nat Broken.heap_renamed
  = (inl (AttributeError "Season"), Broken.heap_renamed).
Proof.
  apply (getYears_no_column Broken.fs_seeds_renamed "g/" [] 8%nat
           Broken.heap_renamed Broken.parsed_renamed).
  - vm_compute. reflexivity.
  - vm_compute. repeat split; reflexivity.
  - apply (bool_decide_unpack _). vm_compute. exact I.
Defined.

Lemma unique_NoDup_id s : NoDup s → unique s = s.
Proof.
  induction s as [|x s IH] using rev_ind; [done|].
  intros (Hs & Hx & _)%NoDup_app. rewrite Unique.unique_snoc, IH by done.
  rewrite decide_False; [done|].
  intros Hin. apply (Hx x); [done | by apply list_elem_of_singleton].
Qed.

(** X14.  When Seasons.csv lists every season once, [getYears] returns its Season
    column as it stands: every row's year, in file order, nothing dropped,
    nothing sorted. *)
Theorem getYears_distinct_column fs datadir (h0 : heap) self h p :
  __init__ fs datadir h0 = (inr self, h) →
  holds fs datadir p →
  "Season" ∈ header (seasons_file p) →
  NoDup ((λ r, cell_at (header (seasons_file p)) r "Season")
           <$> rows (frame_of_csv (seasons_file p))) →
  getYears self h
  = (inr (length h),
     h ++ [OList ((λ r, cell_at (header (seasons_file p)) r "Season")
                    <$> rows (frame_of_csv (seasons_file p)))]).
Proof.
  intros Hinit Hp Hs Hnd.
  destruct (Built.init_built_for _ _ _ _ _ _ Hinit Hp) as [ds B].
  open_built B.
  rewrite (getYears_run h self ds (seasons_file p)) by done.
  by rewrite unique_NoDup_id.
Qed.

Lemma getYears_distinct_column_witness :
  getYears 8%nat Broken.heap_distinct
  = (inr 9%nat,
     Broken.heap_distinct ++ [OList [CInt 2017; CInt 1985; CInt 2016]]).
Proof.
  apply (getYears_distinct_column Broken.fs_distinct "k/" [] 8%nat
           Broken.heap_distinct Broken.parsed_distinct).
  - vm_compute. reflexivity.
  - vm_compute. repeat split; reflexivity.
  - apply (bool_decide_unpack _). vm_compute. exact I.
  - apply (bool_decide_unpack _). vm_compute. exact I.
Defined.





Lemma outcome_alloc {A} (x : res A) (f : A → obj) (h : heap) :
  outcome (match x with
           | inr a => (inr (length h), h ++ [f a])
           | inl e => (inl e, h)
           end)
  = match x with
    | inr a => inr (f a)
    | inl e => inl e
    end.
Proof.
  destruct x as [e|a]; [done|]. unfold outcome. cbn [fst snd].
  by rewrite Run.lookup_new_0.
Qed.

(** X16.  The bracket layout is loaded and never read: two directories that differ
    in TourneySlots.csv alone give instances whose five queries have the same
    outcomes, for all arguments. *)
Theorem slots_never_read fs fs' datadir (h0 : heap) self h self' h' :
  __init__ fs datadir h0 = (inr self, h) →
  __init__ fs' datadir h0 = (inr self', h') →
  same_but_slots fs fs' datadir →
  self' = self
  ∧ (∀ id, (getTeam self id h).1 = (getTeam self id h').1)
  ∧ outcome (getYears self h) = outcome (getYears self h')
  ∧ (∀ season,
       outcome (getSeeds self season h) = outcome (getSeeds self season h'))
  ∧ (∀ season compact,
       outcome (getRegularGames self season compact h)
       = outcome (getRegularGames self season compact h'))
  ∧ (∀ season compact,
       outcome (getTourneyGames self season compact h)
       = outcome (getTourneyGames self season compact h')).
Proof.
  intros (p & d & Hp & _ & _ & Hd & -> & ->)%Init.init_inv
         (q & d' & Hq & _ & _ & Hd' & -> & ->)%Init.init_inv Hsame.
  destruct Hp as (P1 & P2 & P3 & P4 & P5 & P6 & P7 & _).
  destruct Hq as (Q1 & Q2 & Q3 & Q4 & Q5 & Q6 & Q7 & _).
  destruct Hsame as (S1 & S2 & S3 & S4 & S5 & S6 & S7).
  unfold path_regular_comp, path_tourney_comp, path_regular_det,
    path_tourney_det, path_teams, path_seasons, path_seeds in *.
  assert (regular_comp q = regular_comp p) as E1 by congruence.
  assert (tourney_comp q = tourney_comp p) as E2 by congruence.
  assert (regular_det q = regular_det p) as E3 by congruence.
  assert (tourney_det q = tourney_det p) as E4 by congruence.
  assert (teams_file q = teams_file p) as E5 by congruence.
  assert (seasons_file q = seasons_file p) as E6 by congruence.
  assert (seeds_file q = seeds_file p) as E7 by congruence.
  assert (d' = d) as -> by (rewrite E5 in Hd'; congruence).
  pose proof (Init.at_self h0 datadir p d) as Hs.
  pose proof (Init.at_self h0 datadir q d) as Hs'.
  split; [done|]. split; [|split; [|split; [|split]]].
  - intros id.
    rewrite (getTeam_run _ _ _ _ id Hs (Init.at_teams h0 datadir p d)).
    by rewrite (getTeam_run _ _ _ _ id Hs' (Init.at_teams h0 datadir q d)).
  - rewrite (getYears_gen _ _ _ _ Hs (Init.at_seasons h0 datadir p d)).
    rewrite (getYears_gen _ _ _ _ Hs' (Init.at_seasons h0 datadir q d)).
    rewrite E6.
    by rewrite !(outcome_alloc _ (λ s, OList (unique s))).
  - intros season.
    rewrite (getSeeds_gen _ _ _ _ season Hs (Init.at_seeds h0 datadir p d)).
    rewrite (getSeeds_gen _ _ _ _ season Hs' (Init.at_seeds h0 datadir q d)).
    rewrite E7. by rewrite !(outcome_alloc _ ODict).
  - intros season compact. rewrite Games.getRegularGames_body.
    destruct compact.
    + rewrite (Games.games_body_run regular_results _ _ _ _ _ season true Hs
                 (Init.at_compact_headers h0 datadir p d)
                 (Init.at_regular_results h0 datadir p d)).
      rewrite (Games.games_body_run regular_results _ _ _ _ _ season true Hs'
                 (Init.at_compact_headers h0 datadir q d)
                 (Init.at_regular_results h0 datadir q d)).
      rewrite E1, E3. by rewrite !(outcome_alloc _ ODataFrame).
    + rewrite (Games.games_body_run regular_results _ _ _ _ _ season false Hs
                 (Init.at_detailed_headers h0 datadir p d)
                 (Init.at_regular_results h0 datadir p d)).
      rewrite (Games.games_body_run regular_results _ _ _ _ _ season false Hs'
                 (Init.at_detailed_headers h0 datadir q d)
                 (Init.at_regular_results h0 datadir q d)).
      rewrite E1, E3. by rewrite !(outcome_alloc _ ODataFrame).
  - intros season compact. rewrite Games.getTourneyGames_body.
    destruct compact.
    + rewrite (Games.games_body_run tourney_results _ _ _ _ _ season true Hs
                 (Init.at_compact_headers h0 datadir p d)
                 (Init.at_tourney_results h0 datadir p d)).
      rewrite (Games.games_body_run tourney_results _ _ _ _ _ season true Hs'
                 (Init.at_compact_headers h0 datadir q d)
                 (Init.at_tourney_results h0 datadir q d)).
      rewrite E1, E2, E4. by rewrite !(outcome_alloc _ ODataFrame).
    + rewrite (Games.games_body_run tourney_results _ _ _ _ _ season false Hs
                 (Init.at_detailed_headers h0 datadir p d)
                 (Init.at_tourney_results h0 datadir p d)).
      rewrite (Games.games_body_run tourney_results _ _ _ _ _ season false Hs'
                 (Init.at_detailed_headers h0 datadir q d)
                 (Init.at_tourney_results h0 datadir q d)).
      rewrite E2, E3, E4. by rewrite !(outcome_alloc _ ODataFrame).
Qed.

Lemma slots_never_read_witness :
  8%nat = 8%nat
  ∧ (∀ id, (getTeam 8%nat id Sample.heap1).1
           = (getTeam 8%nat id Broken.heap_other_slots).1)
  ∧ outcome (getYears 8%nat Sample.heap1)
    = outcome (getYears 8%nat Broken.heap_other_slots)
  ∧ (∀ season,
       outcome (getSeeds 8%nat season Sample.heap1)
       = outcome (getSeeds 8%nat season Broken.heap_other_slots))
  ∧ (∀ season compact,
       outcome (getRegularGames 8%nat season compact Sample.heap1)
       = outcome (getRegularGames 8%nat season compact
                    Broken.heap_other_slots))
  ∧ (∀ season compact,
       outcome (getTourneyGames 8%nat season compact Sample.heap1)
       = outcome (getTourneyGames 8%nat season compact
                    Broken.heap_other_slots)).
Proof.
  apply (slots_never_read Sample.fs Broken.fs_other_slots "d/" []).
  - vm_compute. reflexivity.
  - vm_compute. reflexivity.
  - vm_compute. repeat split; reflexivity.
Defined.

(** ** Beyond the specification: queries do not see each other's results *)

Lemma games_body_inv results self season compact (h : heap) l h' :
  Shape.games_body results self season compact h = (inr l, h') →
  ∃ ds hs table,
    h !! self = Some (OInstance ds)
    ∧ h !! headers_of ds compact = Some (OList hs)
    ∧ h !! results ds = Some (ODataFrame table).
Proof.
  unfold Shape.games_body, headers_of.
  unfold bind at 1, get_instance at 1.
  destruct (h !! self) as [[| | |ds]|] eqn:Hself; try done.
  unfold bind at 1, get_list at 1.
  destruct (h !! (if compact then compact_headers ds else detailed_headers ds))
    as [[|hs| |]|] eqn:Hhs; try done.
  unfold bind at 1, get_frame at 1.
  destruct (h !! results ds) as [[table| | |]|] eqn:Htab; try done.
  intros _. by exists ds, hs, table.
Qed.

(** X17.  A game query does not depend on what was allocated after the objects it
    reads: a call that answers on a heap answers on every extension of that
    heap, with a table of the same content at the then next free location.  In
    particular calling twice gives two tables, equal in content and distinct as
    objects, and the answers of other queries made in between change
    nothing. *)
Theorem games_answer_on_larger_heap (h new : heap) self season compact l h' :
  getRegularGames self season compact h = (inr l, h')
  ∨ getTourneyGames self season compact h = (inr l, h') →
  ∃ out,
    h' = h ++ [ODataFrame out]
    ∧ (getRegularGames self season compact h = (inr l, h') →
       getRegularGames self season compact (h ++ new)
       = (inr (length (h ++ new)), (h ++ new) ++ [ODataFrame out]))
    ∧ (getTourneyGames self season compact h = (inr l, h') →
       getTourneyGames self season compact (h ++ new)
       = (inr (length (h ++ new)), (h ++ new) ++ [ODataFrame out])).
Proof.
  rewrite Games.getRegularGames_body, Games.getTourneyGames_body.
  assert (∀ results,
            Shape.games_body results self season compact h = (inr l, h') →
            ∃ out,
              h' = h ++ [ODataFrame out]
              ∧ Shape.games_body results self season compact (h ++ new)
                = (inr (length (h ++ new)), (h ++ new) ++ [ODataFrame out]))
    as Hgen.
  { intros results Hcall.
    destruct (games_body_inv _ _ _ _ _ _ _ Hcall)
      as (ds & hs & table & Hself & Hhs & Htab).
    pose proof Hcall as Hrun.
    rewrite (Games.games_body_run results h self ds hs table season compact
               Hself Hhs Htab) in Hrun.
    destruct (Shape.query table hs season) as [e|out] eqn:Hq; [done|].
    injection Hrun as <- <-. exists out. split; [done|].
    rewrite (Games.games_body_run results (h ++ new) self ds hs table season
               compact); [by rewrite Hq|by apply lookup_app_l_Some..]. }
  intros [Hcall|Hcall]; destruct (Hgen _ Hcall) as (out & -> & Hrun);
    exists out; (split; [done|]); split; intros Hother; try done;
    destruct (Hgen _ Hother) as (out' & Heq & Hrun');
    apply app_inj_1 in Heq as [_ [= <-]]; done.
Qed.

Lemma games_answer_on_larger_heap_witness :
  ∃ out,
    getRegularGames 8%nat (PyInt 2003) true (Sample.heap1 ++ [OList []])
    = (inr 10%nat, (Sample.heap1 ++ [OList []]) ++ [ODataFrame out]).
Proof.
  destruct (games_answer_on_larger_heap Sample.heap1 [OList []]
              8%nat (PyInt 2003) true 9%nat
              (getRegularGames 8%nat (PyInt 2003) true Sample.heap1).2)
    as (out & _ & Hr & _).
  - left. vm_compute. reflexivity.
  - exists out. apply Hr. vm_compute. reflexivity.
Defined.


